(** * StrokesofKashi: the gallery application of [app.py]

    A shallow embedding of the Flask views of [src/app.py] and of the three
    SQLAlchemy models they work on, followed by the properties of the
    specification that concern them.

    Conventions of the embedding:
    - a table is the list of its rows in insertion order, which is the order
      in which [Query.all()] and [Query.first()] see them;
    - text is a [string]; an integer column is a [Z]; the [Float] column is an
      IEEE 754 binary64 value ([spec_float] of the standard library);
    - [request.form] is the list of submitted (key, value) pairs, and
      [request.form.get] yields [None] for a key that was not submitted;
    - the Flask [session] is reduced to the one key the views use,
      ['user_id'];
    - a view maps the request, the session and the database to a [Result]:
      the response, the messages it flashed, and the session and the
      committed database it leaves behind.  An exception that escapes a view
      is the response [InternalServerError]; nothing is committed then;
    - the URL rules (which methods a route accepts, the [<int:...>]
      converters) are applied by Flask before a view runs and are not part of
      the views. *)

From Stdlib Require Import ZArith List String Ascii Bool Lia.
From Stdlib Require Import Permutation Sorted Orders Mergesort.
From Stdlib Require Import Floats.SpecFloat.
Import ListNotations.
Open Scope string_scope.
Open Scope list_scope.
Open Scope Z_scope.

(** ** Python's [float] on text *)

(** [float(s)] for a [str] of ASCII characters: surrounding white space is
    dropped, single underscores may separate digits, the body is an optional
    sign followed by [inf], [infinity], [nan] (in any case) or a decimal
    literal with optional fraction and exponent, and the value is the
    binary64 number nearest to the decimal one (ties to even).  [None] stands
    for [ValueError].  Characters outside ASCII are not covered; the views
    take the conversion as a parameter (see [Section Views]). *)
Module PyFloat.

Definition t := spec_float.

Definition prec : Z := 53.
Definition emax : Z := 1024.

Definition is_space (c : ascii) : bool :=
  let n := N_of_ascii c in
  ((9 <=? n)%N && (n <=? 13)%N) || (n =? 32)%N.

Definition is_digit (c : ascii) : bool :=
  let n := N_of_ascii c in (48 <=? n)%N && (n <=? 57)%N.

Definition digit_value (c : ascii) : Z := Z.of_N (N_of_ascii c) - 48.

Definition lower (c : ascii) : ascii :=
  let n := N_of_ascii c in
  if ((65 <=? n)%N && (n <=? 90)%N)%bool then ascii_of_N (n + 32) else c.

Fixpoint lstrip (l : list ascii) : list ascii :=
  match l with
  | c :: l' => if is_space c then lstrip l' else l
  | [] => []
  end.

Definition strip (l : list ascii) : list ascii :=
  rev (lstrip (rev (lstrip l))).

(** An underscore is accepted only between two digits; [prev] is the
    character read last. *)
Fixpoint drop_underscores (prev : option ascii) (l : list ascii)
  : option (list ascii) :=
  match l with
  | [] =>
      match prev with
      | Some "_"%char => None
      | _ => Some []
      end
  | "_"%char :: l' =>
      match prev with
      | Some p =>
          if is_digit p then drop_underscores (Some "_"%char) l' else None
      | None => None
      end
  | c :: l' =>
      match prev with
      | Some "_"%char =>
          if is_digit c
          then option_map (cons c) (drop_underscores (Some c) l')
          else None
      | _ => option_map (cons c) (drop_underscores (Some c) l')
      end
  end.

Fixpoint span_digits (l : list ascii) : list ascii * list ascii :=
  match l with
  | c :: l' =>
      if is_digit c
      then let '(ds, rest) := span_digits l' in (c :: ds, rest)
      else ([], l)
  | [] => ([], [])
  end.

Definition number (ds : list ascii) : Z :=
  fold_left (fun acc c => 10 * acc + digit_value c) ds 0.

Definition split_sign (l : list ascii) : bool * list ascii :=
  match l with
  | "-"%char :: l' => (true, l')
  | "+"%char :: l' => (false, l')
  | _ => (false, l)
  end.

(** The exponent part, which must reach the end of the text. *)
Definition exponent (l : list ascii) : option Z :=
  match l with
  | [] => Some 0
  | c :: l' =>
      if Ascii.eqb (lower c) "e"
      then
        let '(neg, l'') := split_sign l' in
        match span_digits l'' with
        | ((_ :: _) as ds, []) => Some (if neg then - number ds else number ds)
        | _ => None
        end
      else None
  end.

(** The binary64 value nearest to [m * 10 ^ e], with the sign [neg]. *)
Definition of_decimal (neg : bool) (m e : Z) : t :=
  match m with
  | Zpos p =>
      match e with
      | Zneg k =>
          let '(q, e', l) :=
            SFdiv_core_binary prec emax (Zpos p) 0 (10 ^ Zpos k) 0 in
          binary_round_aux prec emax neg q e' l
      | _ =>
          binary_normalize prec emax
            ((if neg then Zneg p else Zpos p) * 10 ^ e) 0 neg
      end
  | _ => S754_zero neg
  end.

Definition decimal (neg : bool) (l : list ascii) : option t :=
  let '(ints, rest) := span_digits l in
  let '(fracs, rest') :=
    match rest with
    | "."%char :: r => span_digits r
    | _ => ([], rest)
    end in
  match ints ++ fracs with
  | [] => None
  | ds =>
      match exponent rest' with
      | Some e =>
          Some (of_decimal neg (number ds) (e - Z.of_nat (List.length fracs)))
      | None => None
      end
  end.

Definition word_eqb (a : list ascii) (w : string) : bool :=
  String.eqb (string_of_list_ascii a) w.

Definition parse (l : list ascii) : option t :=
  let '(neg, body) := split_sign l in
  let low := map lower body in
  if word_eqb low "inf" || word_eqb low "infinity"
  then Some (S754_infinity neg)
  else if word_eqb low "nan" then Some S754_nan
  else decimal neg body.

Definition of_string (s : string) : option t :=
  match drop_underscores None (strip (list_ascii_of_string s)) with
  | Some l => parse l
  | None => None
  end.

Definition zero : t := S754_zero false.

(** [x <= y] and [x < y] on floats; both are false when an operand is NaN. *)
Definition leb (x y : t) : bool := SFleb x y.
Definition ltb (x y : t) : bool := SFltb x y.

Definition is_nan (x : t) : bool :=
  match x with
  | S754_nan => true
  | _ => false
  end.

(** What a REAL column of SQLite gives back for a float written to it.  A
    float that is a whole number is kept as an integer, so a zero comes back
    without its sign; every other value comes back bit for bit. *)
Definition stored (x : t) : t :=
  match x with
  | S754_zero _ => S754_zero false
  | _ => x
  end.

End PyFloat.

(** ** Database models *)

Module User.
Record t := Build {
  id : Z;
  username : string;
  password_hash : string
}.
End User.

Module Category.
Record t := Build {
  id : Z;
  name : string;
  featured_image_url : string;
  is_featured : bool
}.
End Category.

(** [is_sold] is a Boolean column with [default=False]; every row the
    application inserts gets the default and every later write is a Python
    [bool], so the field is a [bool]. *)
Module Painting.
Record t := Build {
  id : Z;
  title : string;
  description : string;
  price : PyFloat.t;
  image_url : string;
  is_sold : bool;
  category_id : Z
}.

Definition set_is_sold (b : bool) (p : t) : t :=
  Build (id p) (title p) (description p) (price p) (image_url p) b
    (category_id p).

(** The assignments of the edit form: every column but [id] and [is_sold]. *)
Definition set_details (ti de : string) (pr : PyFloat.t) (im : string)
  (cat : Z) (p : t) : t :=
  Build (id p) ti de pr im (is_sold p) cat.

End Painting.

Record Database := {
  users : list User.t;
  categories : list Category.t;
  paintings : list Painting.t
}.

Definition with_paintings (ps : list Painting.t) (db : Database) : Database :=
  {| users := users db; categories := categories db; paintings := ps |}.

Definition with_categories (cs : list Category.t) (db : Database) : Database :=
  {| users := users db; categories := cs; paintings := paintings db |}.

(** ** Queries *)

(** The integer primary key SQLite gives a new row: one more than the largest
    key of the table, 1 for an empty table.  (Only on a table that holds the
    largest 64-bit integer as a key does SQLite do otherwise: it draws an
    unused key at random.) *)
Definition next_id (ids : list Z) : Z :=
  match ids with
  | [] => 1
  | i :: rest => 1 + fold_right Z.max i rest
  end.

(** [User.query.filter_by(username=username).first()]; no row has a NULL
    username, so a missing form field finds nothing. *)
Definition find_user (username : option string) (us : list User.t)
  : option User.t :=
  match username with
  | Some n => find (fun u => String.eqb (User.username u) n) us
  | None => None
  end.

(** [Category.query.filter_by(name=category_name).first()] *)
Definition find_category (name : option string) (cs : list Category.t)
  : option Category.t :=
  match name with
  | Some n => find (fun c => String.eqb (Category.name c) n) cs
  | None => None
  end.

(** The integers the sqlite3 driver binds as a parameter: the signed 64-bit
    ones.  For any other Python [int] it raises [OverflowError]. *)
Definition sqlite_int (i : Z) : bool :=
  (- 2 ^ 63 <=? i) && (i <? 2 ^ 63).

(** [Painting.query.get(painting_id)] and [Category.query.get(category_id)]:
    the row the SELECT finds.  There is none when the driver cannot bind the
    id; the views tell that case apart (see [no_row]). *)
Definition get_painting (painting_id : Z) (ps : list Painting.t)
  : option Painting.t :=
  if sqlite_int painting_id
  then find (fun p => Painting.id p =? painting_id) ps
  else None.

Definition get_category (category_id : Z) (cs : list Category.t)
  : option Category.t :=
  if sqlite_int category_id
  then find (fun c => Category.id c =? category_id) cs
  else None.

(** [UPDATE painting SET ... WHERE id = painting_id] *)
Definition update_painting (painting_id : Z) (f : Painting.t -> Painting.t)
  (ps : list Painting.t) : list Painting.t :=
  map (fun p => if Painting.id p =? painting_id then f p else p) ps.

Definition update_category (category_id : Z) (f : Category.t -> Category.t)
  (cs : list Category.t) : list Category.t :=
  map (fun c => if Category.id c =? category_id then f c else c) cs.

(** [DELETE FROM painting WHERE id = painting_id] *)
Definition remove_painting (painting_id : Z) (ps : list Painting.t)
  : list Painting.t :=
  filter (fun p => negb (Painting.id p =? painting_id)) ps.

(** [order_by(Painting.id.desc())]: the order on rows is "has the larger or
    the same id". *)
Module IdDesc <: TotalLeBool.
Definition t := Painting.t.
Definition leb (p q : t) : bool := Painting.id q <=? Painting.id p.
Definition leb_total (p q : t) : leb p q = true \/ leb q p = true :=
  match Z.le_ge_cases (Painting.id q) (Painting.id p) with
  | or_introl H => or_introl (proj2 (Z.leb_le _ _) H)
  | or_intror H => or_intror (proj2 (Z.leb_le _ _) H)
  end.
End IdDesc.

Module IdDescSort := Sort IdDesc.

Definition order_by_id_desc (ps : list Painting.t) : list Painting.t :=
  IdDescSort.sort ps.

(** ** Requests, responses and results *)

Inductive Method := GET | POST.

Record Request := {
  method : Method;
  form : list (string * string)
}.

(** [request.form.get(key)]: the first value submitted under [key]. *)
Definition form_get (key : string) (f : list (string * string))
  : option string :=
  option_map snd (find (fun kv => String.eqb (fst kv) key) f).

(** [key in request.form] *)
Definition form_has (key : string) (f : list (string * string)) : bool :=
  existsb (fun kv => String.eqb (fst kv) key) f.

(** The targets of [url_for] in the views. *)
Inductive Endpoint := Url_home | Url_login | Url_admin.

(** What a view hands back: a redirect, one of the templates with the values
    it is rendered with, a 404 ([get_or_404], [first_or_404]) or a 500 (an
    exception that no view catches). *)
Inductive Response :=
| Redirect (target : Endpoint)
| IndexPage (featured_categories : list Category.t)
    (shown : list Painting.t)
| CategoryPage (shown : list Painting.t) (category_name : string)
| ProductPage (painting : Painting.t)
| LoginPage
| AdminPage (all_paintings : list Painting.t)
    (all_categories : list Category.t)
| EditPaintingPage (painting : Painting.t)
    (all_categories : list Category.t)
| EditCategoryPage (category : Category.t)
| NotFound
| InternalServerError.

(** The value of [session['user_id']], if the key is there. *)
Definition Session := option Z.

(** A flashed message with its category. *)
Definition Flash := (string * string)%type.

Record Result := {
  response : Response;
  flashed : list Flash;
  session_after : Session;
  db_after : Database
}.

Definition reply (r : Response) (s : Session) (db : Database) : Result :=
  {| response := r; flashed := []; session_after := s; db_after := db |}.

(** [get_or_404] without a row: the 404 of [abort], or the 500 of the
    [OverflowError] that the driver raised on an id it cannot bind. *)
Definition no_row (id : Z) (s : Session) (db : Database) : Result :=
  reply (if sqlite_int id then NotFound else InternalServerError) s db.

Definition invalid_credentials : string := "Invalid username or password.".

(** ** Writing rows *)

(** [db.session.add(Painting(...)); db.session.commit()]: the new row takes
    the next id and the column default [is_sold = False].  The NOT NULL
    columns refuse a missing form field, and the price column refuses NaN,
    which SQLite stores as NULL; [None] is the [IntegrityError].  The price
    of the row is the float as the column gives it back. *)
Definition insert_painting (title description : option string)
  (price : PyFloat.t) (image_url : option string) (category_id : Z)
  (ps : list Painting.t) : option (list Painting.t) :=
  match title, description, image_url with
  | Some ti, Some de, Some im =>
      if PyFloat.is_nan price then None
      else Some (ps ++ [Painting.Build (next_id (map Painting.id ps)) ti de
                          (PyFloat.stored price) im false category_id])
  | _, _, _ => None
  end.

(** The commit of the edit form: the same constraints, then the UPDATE. *)
Definition write_painting (painting_id : Z) (title description : option string)
  (price : PyFloat.t) (image_url : option string) (category_id : Z)
  (ps : list Painting.t) : option (list Painting.t) :=
  match title, description, image_url with
  | Some ti, Some de, Some im =>
      if PyFloat.is_nan price then None
      else Some (update_painting painting_id
                   (Painting.set_details ti de (PyFloat.stored price) im
                      category_id) ps)
  | _, _, _ => None
  end.

(** [name] is UNIQUE: no row other than [own_id] may carry it. *)
Definition name_taken (own_id : option Z) (name : string)
  (cs : list Category.t) : bool :=
  existsb (fun c =>
             String.eqb (Category.name c) name
             && match own_id with
                | Some i => negb (Category.id c =? i)
                | None => true
                end) cs.

(** [db.session.add(Category(...)); db.session.commit()] *)
Definition insert_category (name featured_image_url : option string)
  (is_featured : bool) (cs : list Category.t) : option (list Category.t) :=
  match name, featured_image_url with
  | Some n, Some url =>
      if name_taken None n cs then None
      else Some (cs ++ [Category.Build (next_id (map Category.id cs)) n url
                          is_featured])
  | _, _ => None
  end.

(** The commit of the category form; the name as written is handed back for
    the flashed message. *)
Definition write_category (category_id : Z)
  (name featured_image_url : option string) (is_featured : bool)
  (cs : list Category.t) : option (string * list Category.t) :=
  match name, featured_image_url with
  | Some n, Some url =>
      if name_taken (Some category_id) n cs then None
      else Some (n, update_category category_id
                      (fun c => Category.Build (Category.id c) n url
                                  is_featured) cs)
  | _, _ => None
  end.

(** ** The views *)

Section Views.

(** Python's [float] on a [str], [None] when it raises [ValueError]. *)
Variable float : string -> option PyFloat.t.

(** werkzeug's [check_password_hash pwhash password]. *)
Variable check_password_hash : string -> string -> bool.

(** [float(request.form.get('price'))]: [float(None)] raises [TypeError]. *)
Definition float_of_field (price : option string) : option PyFloat.t :=
  match price with
  | Some text => float text
  | None => None
  end.

(** [User.check_password] *)
Definition check_password (self : User.t) (password : string) : bool :=
  check_password_hash (User.password_hash self) password.

(** *** Public routes *)

Definition home (s : Session) (db : Database) : Result :=
  let featured_categories := filter Category.is_featured (categories db) in
  let paintings :=
    order_by_id_desc
      (filter (fun p => negb (Painting.is_sold p)) (paintings db)) in
  reply (IndexPage featured_categories paintings) s db.

Definition category_page (category_name : string) (s : Session)
  (db : Database) : Result :=
  match find_category (Some category_name) (categories db) with
  | Some category =>
      let paintings :=
        filter (fun p => (Painting.category_id p =? Category.id category)
                         && negb (Painting.is_sold p)) (paintings db) in
      reply (CategoryPage paintings (Category.name category)) s db
  | None => reply NotFound s db
  end.

Definition product (product_id : Z) (s : Session) (db : Database) : Result :=
  match get_painting product_id (paintings db) with
  | Some painting => reply (ProductPage painting) s db
  | None => no_row product_id s db
  end.

(** *** Authentication routes *)

(** With a user found and no password field, [check_password(None)] raises
    inside werkzeug, which encodes the password before hashing it. *)
Definition login (request : Request) (s : Session) (db : Database) : Result :=
  match method request with
  | POST =>
      let username := form_get "username" (form request) in
      let password := form_get "password" (form request) in
      let user := find_user username (users db) in
      let rejected :=
        {| response := LoginPage;
           flashed := [("message", invalid_credentials)];
           session_after := s;
           db_after := db |} in
      match user with
      | None => rejected
      | Some u =>
          match password with
          | Some pw =>
              if check_password u pw
              then reply (Redirect Url_admin) (Some (User.id u)) db
              else rejected
          | None => reply InternalServerError s db
          end
      end
  | GET => reply LoginPage s db
  end.

Definition logout (s : Session) (db : Database) : Result :=
  reply (Redirect Url_home) None db.

(** *** Admin-only routes *)

(** ['user_id' in session] *)
Definition is_admin (s : Session) : bool :=
  match s with
  | Some _ => true
  | None => false
  end.

Definition admin (s : Session) (db : Database) : Result :=
  if negb (is_admin s) then reply (Redirect Url_login) s db
  else reply (AdminPage (paintings db) (categories db)) s db.

Definition add_painting (request : Request) (s : Session) (db : Database)
  : Result :=
  if negb (is_admin s) then reply (Redirect Url_login) s db
  else
    let title := form_get "title" (form request) in
    let description := form_get "description" (form request) in
    let price := form_get "price" (form request) in
    let image_url := form_get "image_url" (form request) in
    let category_name := form_get "category" (form request) in
    match find_category category_name (categories db) with
    | Some category =>
        match float_of_field price with
        | Some price =>
            match insert_painting title description price image_url
                    (Category.id category) (paintings db) with
            | Some ps => reply (Redirect Url_admin) s (with_paintings ps db)
            | None => reply InternalServerError s db
            end
        | None => reply InternalServerError s db
        end
    | None => reply (Redirect Url_admin) s db
    end.

Definition add_category (request : Request) (s : Session) (db : Database)
  : Result :=
  if negb (is_admin s) then reply (Redirect Url_login) s db
  else
    let name := form_get "name" (form request) in
    let featured_image_url := form_get "featured_image_url" (form request) in
    let is_featured := form_has "is_featured" (form request) in
    match insert_category name featured_image_url is_featured
            (categories db) with
    | Some cs => reply (Redirect Url_admin) s (with_categories cs db)
    | None => reply InternalServerError s db
    end.

(** The attribute assignments of the POST branch reach the database only at
    [db.session.commit()]; when [float] raises before it, nothing is
    written. *)
Definition edit_painting (painting_id : Z) (request : Request) (s : Session)
  (db : Database) : Result :=
  if negb (is_admin s) then reply (Redirect Url_login) s db
  else
    match get_painting painting_id (paintings db) with
    | Some painting =>
        match method request with
        | POST =>
            let title := form_get "title" (form request) in
            let description := form_get "description" (form request) in
            match float_of_field (form_get "price" (form request)) with
            | Some price =>
                let image_url := form_get "image_url" (form request) in
                let category_name := form_get "category" (form request) in
                let category_id :=
                  match find_category category_name (categories db) with
                  | Some category => Category.id category
                  | None => Painting.category_id painting
                  end in
                match write_painting painting_id title description price
                        image_url category_id (paintings db) with
                | Some ps =>
                    reply (Redirect Url_admin) s (with_paintings ps db)
                | None => reply InternalServerError s db
                end
            | None => reply InternalServerError s db
            end
        | GET => reply (EditPaintingPage painting (categories db)) s db
        end
    | None => no_row painting_id s db
    end.

Definition delete_painting (painting_id : Z) (s : Session) (db : Database)
  : Result :=
  if negb (is_admin s) then reply (Redirect Url_login) s db
  else
    match get_painting painting_id (paintings db) with
    | Some painting =>
        reply (Redirect Url_admin) s
          (with_paintings (remove_painting (Painting.id painting)
                             (paintings db)) db)
    | None => no_row painting_id s db
    end.

Definition toggle_sold (painting_id : Z) (s : Session) (db : Database)
  : Result :=
  if negb (is_admin s) then reply (Redirect Url_login) s db
  else
    match get_painting painting_id (paintings db) with
    | Some painting =>
        let is_sold := negb (Painting.is_sold painting) in
        reply (Redirect Url_admin) s
          (with_paintings (update_painting (Painting.id painting)
                             (Painting.set_is_sold is_sold) (paintings db))
             db)
    | None => no_row painting_id s db
    end.

(** The body of [delete_category] is the guard and the lookup, lines 225 to
    229.  The next line is the decorator of [edit_category]; the statements
    that delete the row and commit stand after the last [return] of
    [edit_category], where nothing runs them.  A view that ends without a
    [return] gives Flask [None], which it answers with a 500. *)
Definition delete_category (category_id : Z) (s : Session) (db : Database)
  : Result :=
  if negb (is_admin s) then reply (Redirect Url_login) s db
  else
    match get_category category_id (categories db) with
    | Some category_to_delete => reply InternalServerError s db
    | None => no_row category_id s db
    end.

Definition edit_category (category_id : Z) (request : Request) (s : Session)
  (db : Database) : Result :=
  if negb (is_admin s) then reply (Redirect Url_login) s db
  else
    match get_category category_id (categories db) with
    | Some category =>
        match method request with
        | POST =>
            let name := form_get "name" (form request) in
            let featured_image_url :=
              form_get "featured_image_url" (form request) in
            let is_featured := form_has "is_featured" (form request) in
            match write_category (Category.id category) name
                    featured_image_url is_featured (categories db) with
            | Some (written, cs) =>
                {| response := Redirect Url_admin;
                   flashed :=
                     [("success",
                       ("Category '" ++ written ++ "' has been updated.")%string)];
                   session_after := s;
                   db_after := with_categories cs db |}
            | None => reply InternalServerError s db
            end
        | GET => reply (EditCategoryPage category) s db
        end
    | None => no_row category_id s db
    end.

(** The admin-only routes and the view each one runs. *)
Inductive AdminRoute :=
| Route_admin
| Route_add_painting
| Route_add_category
| Route_edit_painting (painting_id : Z)
| Route_delete_painting (painting_id : Z)
| Route_toggle_sold (painting_id : Z)
| Route_delete_category (category_id : Z)
| Route_edit_category (category_id : Z).

Definition admin_view (route : AdminRoute) (request : Request) (s : Session)
  (db : Database) : Result :=
  match route with
  | Route_admin => admin s db
  | Route_add_painting => add_painting request s db
  | Route_add_category => add_category request s db
  | Route_edit_painting painting_id => edit_painting painting_id request s db
  | Route_delete_painting painting_id => delete_painting painting_id s db
  | Route_toggle_sold painting_id => toggle_sold painting_id s db
  | Route_delete_category category_id => delete_category category_id s db
  | Route_edit_category category_id => edit_category category_id request s db
  end.

End Views.

(** ** A small gallery to run the views on *)

(** A stand-in for werkzeug's check, for running [login]: the stored text is
    the password itself. *)
Definition plain_check (pwhash password : string) : bool :=
  String.eqb pwhash password.

Definition price_120 : PyFloat.t :=
  Eval vm_compute in
    match PyFloat.of_string "120.0" with
    | Some v => v
    | None => PyFloat.zero
    end.

Definition the_admin : User.t := User.Build 1 "admin" "admin123".

Definition landscapes : Category.t :=
  Category.Build 1 "Landscapes" "landscapes.jpg" true.

Definition dawn : Painting.t :=
  Painting.Build 1 "Dawn" "Morning on the river" price_120 "dawn.jpg" false 1.

Definition gallery : Database :=
  {| users := [the_admin]; categories := [landscapes]; paintings := [dawn] |}.

Definition logged_in : Session := Some 1.

(** A submission for the category of [gallery] whose price is no number. *)
Definition dusk_bad_price : Request :=
  {| method := POST;
     form := [("title", "Dusk"); ("description", "Evening on the river");
              ("price", "abc"); ("image_url", "dusk.jpg");
              ("category", "Landscapes")] |}.

(** The same submission with a price below zero. *)
Definition dusk_negative_price : Request :=
  {| method := POST;
     form := [("title", "Dusk"); ("description", "Evening on the river");
              ("price", "-5"); ("image_url", "dusk.jpg");
              ("category", "Landscapes")] |}.

(** The same submission with a price of 80. *)
Definition dusk_request : Request :=
  {| method := POST;
     form := [("title", "Dusk"); ("description", "Evening on the river");
              ("price", "80"); ("image_url", "dusk.jpg");
              ("category", "Landscapes")] |}.

Definition price_80 : PyFloat.t :=
  Eval vm_compute in
    match PyFloat.of_string "80" with
    | Some v => v
    | None => PyFloat.zero
    end.

Definition dusk : Painting.t :=
  Painting.Build 2 "Dusk" "Evening on the river" price_80 "dusk.jpg" false 1.

(** A POST for [dawn] with a category name that no category carries. *)
Definition dawn_retitled : list (string * string) :=
  [("title", "Dawn II"); ("description", "Later that morning");
   ("price", "80"); ("image_url", "dawn2.jpg"); ("category", "Portraits")].

(** The requests of the scenario of the specification, on a store that
    holds the administrator only. *)
Definition empty_store : Database :=
  {| users := [the_admin]; categories := []; paintings := [] |}.

Definition landscapes_request : Request :=
  {| method := POST;
     form := [("name", "Landscapes");
              ("featured_image_url", "landscapes.jpg");
              ("is_featured", "on")] |}.

Definition dawn_request : Request :=
  {| method := POST;
     form := [("title", "Dawn"); ("description", "Morning on the river");
              ("price", "120.0"); ("image_url", "dawn.jpg");
              ("category", "Landscapes")] |}.

Definition login_request (username password : string) : Request :=
  {| method := POST;
     form := [("username", username); ("password", password)] |}.

(** ** Predicates of the statements *)

(** [x] is the first element of [l] with the property [P]: the row that
    [first()] returns of a query filtered by [P]. *)
Definition first_such {A : Type} (P : A -> Prop) (x : A) (l : list A)
  : Prop :=
  exists before after,
    l = before ++ x :: after /\ P x /\ forall y, In y before -> ~ P y.

Definition user_named (name : string) (u : User.t) : Prop :=
  User.username u = name.

Definition category_named (name : string) (c : Category.t) : Prop :=
  Category.name c = name.

(** A login POST for the user of [gallery] that carries no password. *)
Definition login_no_password : Request :=
  {| method := POST; form := [("username", "admin")] |}.

(** A form that carries a painting: the three texts and a price text. *)
Record painting_fields (fields : list (string * string))
  (ti de text im : string) : Prop := {
  has_title : form_get "title" fields = Some ti;
  has_description : form_get "description" fields = Some de;
  has_price : form_get "price" fields = Some text;
  has_image_url : form_get "image_url" fields = Some im
}.

(** Every painting of the store has a price [>= 0]. *)
Definition prices_nonneg (db : Database) : bool :=
  forallb (fun p => PyFloat.leb PyFloat.zero (Painting.price p))
    (paintings db).

(** ** The command-line commands *)

Definition with_users (us : list User.t) (db : Database) : Database :=
  {| users := us; categories := categories db; paintings := paintings db |}.

Section Commands.

(** werkzeug's [generate_password_hash], with the salt it draws fixed. *)
Variable generate_password_hash : string -> string.

(** [User.set_password] *)
Definition set_password (self : User.t) (password : string) : User.t :=
  User.Build (User.id self) (User.username self)
    (generate_password_hash password).

(** [flask create-admin]: the line it prints and the store it leaves.  The
    row is built with the id the insert will give it; its hash is unset until
    [set_password] runs. *)
Definition create_admin_command (db : Database) : string * Database :=
  match find_user (Some "admin") (users db) with
  | None =>
      let admin := User.Build (next_id (map User.id (users db))) "admin" "" in
      let admin := set_password admin "admin123" in
      ("Admin user created with username 'admin' and password 'admin123'.",
       with_users (users db ++ [admin]) db)
  | Some admin_user => ("Admin user already exists.", db)
  end.

End Commands.

(** ** Integrity of the store *)

(** The primary keys of paintings and categories and the names of
    categories are each carried by one row only. *)
Definition keys_unique (db : Database) : Prop :=
  NoDup (map Painting.id (paintings db)) /\
  NoDup (map Category.id (categories db)) /\
  NoDup (map Category.name (categories db)).

(** Every painting refers to the id of a category of the store. *)
Definition references_valid (db : Database) : Prop :=
  forall p, In p (paintings db) ->
            In (Painting.category_id p) (map Category.id (categories db)).

(** ** Facts about the queries *)

(** A lookup that finds a row was given an id the driver binds, and the row
    is the first one of the table with that id. *)
Lemma get_painting_some (pid : Z) (ps : list Painting.t) (p : Painting.t) :
  get_painting pid ps = Some p ->
  sqlite_int pid = true /\
  find (fun q => Painting.id q =? pid) ps = Some p.
Proof.
  unfold get_painting. destruct (sqlite_int pid); [auto | discriminate].
Qed.

Lemma get_category_some (cid : Z) (cs : list Category.t) (c : Category.t) :
  get_category cid cs = Some c ->
  sqlite_int cid = true /\
  find (fun q => Category.id q =? cid) cs = Some c.
Proof.
  unfold get_category. destruct (sqlite_int cid); [auto | discriminate].
Qed.

Lemma get_painting_id (pid : Z) (ps : list Painting.t) (p : Painting.t) :
  get_painting pid ps = Some p -> Painting.id p = pid.
Proof.
  intros H. apply get_painting_some in H. destruct H as [_ H].
  apply find_some in H. destruct H as [_ H].
  now apply Z.eqb_eq.
Qed.

Lemma get_painting_row (pid : Z) (ps : list Painting.t) (p : Painting.t) :
  get_painting pid ps = Some p -> In p ps.
Proof.
  intros H. apply get_painting_some in H. destruct H as [_ H].
  now apply find_some in H.
Qed.

(** Looking a row up after an UPDATE that keeps ids. *)
Lemma get_painting_update (pid : Z) (f : Painting.t -> Painting.t)
  (ps : list Painting.t) :
  (forall p, Painting.id (f p) = Painting.id p) ->
  get_painting pid (update_painting pid f ps)
  = option_map f (get_painting pid ps).
Proof.
  intros Hid. unfold get_painting, update_painting.
  destruct (sqlite_int pid); [| reflexivity].
  induction ps as [| q ps IH]; simpl; [reflexivity |].
  destruct (Painting.id q =? pid) eqn:E.
  - rewrite Hid, E. reflexivity.
  - rewrite E. exact IH.
Qed.

(** [find] returns the first element that passes the test. *)
Lemma find_first_such {A : Type} (test : A -> bool) (P : A -> Prop)
  (l : list A) (x : A) :
  (forall y, test y = true <-> P y) ->
  (find test l = Some x <-> first_such P x l).
Proof.
  intros Htest. induction l as [| y l IH]; cbn [find].
  - split; [discriminate |].
    intros (before & after & E & _). now destruct before.
  - destruct (test y) eqn:Ey.
    + split.
      * intros H. injection H as <-. exists [], l.
        split; [reflexivity |]. split; [now apply Htest | intros z []].
      * intros (before & after & E & Hx & Hbefore).
        destruct before as [| z before]; cbn [app] in E.
        -- now injection E as <- _.
        -- injection E as <- _. exfalso.
           apply (Hbefore y); [now left | now apply Htest].
    + split.
      * intros H. apply IH in H.
        destruct H as (before & after & -> & Hx & Hbefore).
        exists (y :: before), after.
        split; [reflexivity |]. split; [exact Hx |].
        intros z [<- | Hz]; [| now apply Hbefore].
        intros Hy. apply Htest in Hy. congruence.
      * intros (before & after & E & Hx & Hbefore).
        destruct before as [| z before]; cbn [app] in E.
        -- injection E as -> _. apply Htest in Hx. congruence.
        -- injection E as _ ->. apply IH.
           exists before, after.
           split; [reflexivity |]. split; [exact Hx |].
           intros w Hw. apply Hbefore. now right.
Qed.

Lemma find_nothing {A : Type} (test : A -> bool) (P : A -> Prop)
  (l : list A) :
  (forall y, test y = true <-> P y) ->
  (find test l = None <-> forall y, In y l -> ~ P y).
Proof.
  intros Htest. split.
  - intros H y Hin Hy. apply Htest in Hy.
    pose proof (find_none _ _ H y Hin). congruence.
  - intros H. destruct (find test l) as [x |] eqn:E; [| reflexivity].
    apply find_some in E. destruct E as [Hin Hx].
    apply Htest in Hx. now apply H in Hin.
Qed.

(** With the names of the rows all different, a row with the property of
    carrying a name is the first with it. *)
Lemma first_such_of_unique {A B : Type} (key : A -> B) (k : B) (x : A)
  (l : list A) :
  NoDup (map key l) -> In x l -> key x = k ->
  first_such (fun y => key y = k) x l.
Proof.
  intros Hnd Hin Hk. apply in_split in Hin.
  destruct Hin as (before & after & ->).
  exists before, after. split; [reflexivity |]. split; [exact Hk |].
  intros y Hy Hyk. rewrite map_app in Hnd. cbn [map] in Hnd.
  apply NoDup_remove_2 in Hnd. apply Hnd.
  apply in_or_app. left. rewrite Hk, <- Hyk. now apply in_map.
Qed.

Lemma first_such_In {A : Type} (P : A -> Prop) (x : A) (l : list A) :
  first_such P x l -> In x l /\ P x.
Proof.
  intros (before & after & -> & Hx & _). split; [| exact Hx].
  apply in_or_app. right. now left.
Qed.

Lemma find_user_first (name : string) (us : list User.t) (u : User.t) :
  find_user (Some name) us = Some u <-> first_such (user_named name) u us.
Proof.
  apply find_first_such. intros y. apply String.eqb_eq.
Qed.

Lemma find_user_nobody (name : string) (us : list User.t) :
  find_user (Some name) us = None <->
  forall u, In u us -> User.username u <> name.
Proof.
  apply (find_nothing _ (user_named name)). intros y. apply String.eqb_eq.
Qed.

Lemma find_category_first (name : string) (cs : list Category.t)
  (c : Category.t) :
  find_category (Some name) cs = Some c <->
  first_such (category_named name) c cs.
Proof.
  apply find_first_such. intros y. apply String.eqb_eq.
Qed.

Lemma find_category_nothing (name : string) (cs : list Category.t) :
  find_category (Some name) cs = None <->
  forall c, In c cs -> Category.name c <> name.
Proof.
  apply (find_nothing _ (category_named name)). intros y.
  apply String.eqb_eq.
Qed.

(** The sign of a zero does not matter to the order. *)
Lemma leb_zero_stored (v : PyFloat.t) :
  PyFloat.leb PyFloat.zero (PyFloat.stored v) = PyFloat.leb PyFloat.zero v.
Proof. now destruct v as [[] | | |]. Qed.

Lemma set_is_sold_id (b : bool) (p : Painting.t) :
  Painting.id (Painting.set_is_sold b p) = Painting.id p.
Proof. reflexivity. Qed.

Lemma set_is_sold_same (p : Painting.t) :
  Painting.set_is_sold (Painting.is_sold p) p = p.
Proof. now destruct p. Qed.

Lemma set_is_sold_twice (a b : bool) (p : Painting.t) :
  Painting.set_is_sold b (Painting.set_is_sold a p) = Painting.set_is_sold b p.
Proof. reflexivity. Qed.

Lemma is_admin_true (s : Session) :
  is_admin s = true -> negb (is_admin s) = false.
Proof. now intros ->. Qed.

(** The order of [order_by_id_desc] is transitive. *)
Lemma IdDesc_leb_trans : Transitive (fun p q => is_true (IdDesc.leb p q)).
Proof.
  intros p q r. unfold IdDesc.leb, is_true.
  rewrite !Z.leb_le. lia.
Qed.

Lemma order_by_id_desc_perm (ps : list Painting.t) :
  Permutation (order_by_id_desc ps) ps.
Proof.
  symmetry. apply IdDescSort.Permuted_sort.
Qed.

Lemma order_by_id_desc_sorted (ps : list Painting.t) :
  StronglySorted (fun p q => Painting.id q <= Painting.id p)
    (order_by_id_desc ps).
Proof.
  pose proof (IdDescSort.StronglySorted_sort ps IdDesc_leb_trans) as H.
  unfold order_by_id_desc.
  induction H as [| p l Hl IH Hp]; constructor.
  - exact IH.
  - eapply Forall_impl; [| exact Hp].
    intros q Hq. unfold IdDesc.leb, is_true in Hq. now apply Z.leb_le.
Qed.

(** ** Running the views *)

(** The scenario of the specification: the category Landscapes is created as
    featured, the painting Dawn is created in it, the home page shows both,
    and it stops showing Dawn once the painting is toggled sold. *)
Example scenario_dawn :
  let db1 := db_after (add_category landscapes_request logged_in empty_store) in
  let db2 :=
    db_after (add_painting PyFloat.of_string dawn_request logged_in db1) in
  let db3 := db_after (toggle_sold 1 logged_in db2) in
  db2 = gallery /\
  response (home None db2) = IndexPage [landscapes] [dawn] /\
  response (home None db3) = IndexPage [landscapes] [].
Proof. vm_compute. repeat split. Qed.

(** Logging in with the right password opens the dashboard; a wrong password
    brings the login page back and the dashboard stays closed. *)
Example login_then_admin :
  let r := login plain_check (login_request "admin" "admin123") None gallery in
  response r = Redirect Url_admin /\
  response (admin (session_after r) (db_after r))
  = AdminPage [dawn] [landscapes].
Proof. vm_compute. repeat split. Qed.

Example login_wrong_password :
  let r := login plain_check (login_request "admin" "guess") None gallery in
  response r = LoginPage /\
  flashed r = [("message", "Invalid username or password.")] /\
  response (admin (session_after r) (db_after r)) = Redirect Url_login.
Proof. vm_compute. repeat split. Qed.

(** A painting for a category that does not exist is dropped. *)
Example add_painting_unknown_category :
  add_painting PyFloat.of_string
    {| method := POST;
       form := [("title", "Dusk"); ("description", "Evening on the river");
                ("price", "80"); ("image_url", "dusk.jpg");
                ("category", "Nonexistent")] |} logged_in gallery
  = reply (Redirect Url_admin) logged_in gallery.
Proof. reflexivity. Qed.

(** A submission without a title, and one whose price is NaN, are refused by
    the NOT NULL columns: nothing is stored. *)
Example add_painting_without_title :
  add_painting PyFloat.of_string
    {| method := POST;
       form := [("description", "Evening on the river"); ("price", "80");
                ("image_url", "dusk.jpg"); ("category", "Landscapes")] |}
    logged_in gallery
  = reply InternalServerError logged_in gallery.
Proof. vm_compute. reflexivity. Qed.

Example add_painting_nan_price :
  add_painting PyFloat.of_string
    {| method := POST;
       form := [("title", "Dusk"); ("description", "Evening on the river");
                ("price", "nan"); ("image_url", "dusk.jpg");
                ("category", "Landscapes")] |}
    logged_in gallery
  = reply InternalServerError logged_in gallery.
Proof. vm_compute. reflexivity. Qed.

(** A second category under a name that is taken violates UNIQUE. *)
Example add_category_taken_name :
  add_category landscapes_request logged_in gallery
  = reply InternalServerError logged_in gallery.
Proof. reflexivity. Qed.

(** ** Properties of the views *)

(** A view that only replies leaves the store and the session alone. *)
Lemma delete_category_keeps_db (category_id : Z) (s : Session)
  (db : Database) :
  db_after (delete_category category_id s db) = db.
Proof.
  unfold delete_category.
  destruct (negb (is_admin s)); [reflexivity |].
  now destruct (get_category category_id (categories db)).
Qed.

(** C1, as the code runs: an administrator deletes the category
    [landscapes] of [gallery], which owns the painting [dawn].  The view
    answers with a server error and the store is the one it started from:
    the category and its painting are both still there. *)
Theorem delete_category_leaves_rows :
  let r := delete_category 1 logged_in gallery in
  response r = InternalServerError /\
  db_after r = gallery /\
  In landscapes (categories (db_after r)) /\
  In dawn (paintings (db_after r)) /\
  Painting.category_id dawn = Category.id landscapes.
Proof.
  vm_compute. repeat split; left; reflexivity.
Qed.

(** What [toggle_sold] does for an administrator on a painting it finds. *)
Lemma toggle_sold_found (painting_id : Z) (s : Session) (db : Database)
  (P : Painting.t) :
  is_admin s = true ->
  get_painting painting_id (paintings db) = Some P ->
  toggle_sold painting_id s db
  = reply (Redirect Url_admin) s
      (with_paintings
         (update_painting painting_id
            (Painting.set_is_sold (negb (Painting.is_sold P)))
            (paintings db)) db).
Proof.
  intros Hadm Hget. unfold toggle_sold.
  rewrite (is_admin_true _ Hadm), Hget, (get_painting_id _ _ _ Hget).
  reflexivity.
Qed.

(** C2: toggling the sold flag of a painting twice gives back its original
    [is_sold].  For an administrator and a painting [P] found under
    [painting_id], the first [toggle_sold] stores [P] with the flag negated,
    and the second stores [P] itself again. *)
Theorem toggle_sold_involutive (painting_id : Z) (s : Session)
  (db : Database) (P : Painting.t) :
  is_admin s = true ->
  get_painting painting_id (paintings db) = Some P ->
  let r1 := toggle_sold painting_id s db in
  let r2 := toggle_sold painting_id (session_after r1) (db_after r1) in
  response r1 = Redirect Url_admin /\
  response r2 = Redirect Url_admin /\
  (exists P1,
     get_painting painting_id (paintings (db_after r1)) = Some P1 /\
     Painting.is_sold P1 = negb (Painting.is_sold P)) /\
  (exists P2,
     get_painting painting_id (paintings (db_after r2)) = Some P2 /\
     Painting.is_sold P2 = Painting.is_sold P /\ P2 = P).
Proof.
  intros Hadm Hget r1 r2.
  set (P1 := Painting.set_is_sold (negb (Painting.is_sold P)) P).
  assert (E1 : r1 = reply (Redirect Url_admin) s
                      (with_paintings
                         (update_painting painting_id
                            (Painting.set_is_sold
                               (negb (Painting.is_sold P)))
                            (paintings db)) db))
    by (apply toggle_sold_found; assumption).
  assert (Hget1 : get_painting painting_id (paintings (db_after r1))
                  = Some P1).
  { rewrite E1. cbn [db_after reply paintings with_paintings].
    rewrite get_painting_update by (intros; apply set_is_sold_id).
    now rewrite Hget. }
  assert (Hadm1 : is_admin (session_after r1) = true)
    by (rewrite E1; exact Hadm).
  pose proof (toggle_sold_found _ _ _ _ Hadm1 Hget1) as E2.
  fold r2 in E2.
  assert (Hget2 : get_painting painting_id (paintings (db_after r2))
                  = Some P).
  { rewrite E2. cbn [db_after reply paintings with_paintings].
    rewrite get_painting_update by (intros; apply set_is_sold_id).
    rewrite Hget1. unfold P1. cbn [option_map].
    rewrite set_is_sold_twice.
    cbn [Painting.is_sold Painting.set_is_sold].
    rewrite negb_involutive. now rewrite set_is_sold_same. }
  repeat split.
  - now rewrite E1.
  - now rewrite E2.
  - exists P1. split; [exact Hget1 | reflexivity].
  - exists P. repeat split. exact Hget2.
Qed.

Lemma toggle_sold_involutive_witness :
  is_admin logged_in = true /\
  get_painting 1 (paintings gallery) = Some dawn /\
  exists P2,
    get_painting 1
      (paintings
         (db_after
            (toggle_sold 1
               (session_after (toggle_sold 1 logged_in gallery))
               (db_after (toggle_sold 1 logged_in gallery))))) = Some P2 /\
    Painting.is_sold P2 = Painting.is_sold dawn /\ P2 = dawn.
Proof.
  split; [reflexivity |]. split; [reflexivity |].
  apply (toggle_sold_involutive 1 logged_in gallery dawn);
    reflexivity.
Defined.

(** The paintings [home] lists are the unsold paintings of the store. *)
Lemma home_listing_In (ps : list Painting.t) (p : Painting.t) :
  In p (order_by_id_desc (filter (fun q => negb (Painting.is_sold q)) ps))
  <-> In p ps /\ Painting.is_sold p = false.
Proof.
  set (unsold := filter (fun q => negb (Painting.is_sold q)) ps).
  split.
  - intros H.
    apply (Permutation_in _ (order_by_id_desc_perm unsold)) in H.
    apply filter_In in H. destruct H as [H1 H2].
    split; [exact H1 | now apply negb_true_iff].
  - intros [H1 H2].
    apply (Permutation_in _ (Permutation_sym (order_by_id_desc_perm unsold))).
    apply filter_In. split; [exact H1 | now apply negb_true_iff].
Qed.

(** C3: for every database state, [home] renders exactly the featured
    categories and exactly the paintings that are not sold, the paintings in
    descending order of id; no painting it shows is sold, and the store is
    left as it was. *)
Theorem home_shows_featured_and_unsold (s : Session) (db : Database) :
  exists featured shown,
    response (home s db) = IndexPage featured shown /\
    db_after (home s db) = db /\
    featured = filter Category.is_featured (categories db) /\
    (forall c, In c featured <->
               In c (categories db) /\ Category.is_featured c = true) /\
    Permutation shown
      (filter (fun p => negb (Painting.is_sold p)) (paintings db)) /\
    (forall p, In p shown <->
               In p (paintings db) /\ Painting.is_sold p = false) /\
    StronglySorted (fun p q => Painting.id q <= Painting.id p) shown /\
    Forall (fun p => Painting.is_sold p = false) shown.
Proof.
  set (unsold := filter (fun p => negb (Painting.is_sold p)) (paintings db)).
  assert (Hin : forall p, In p (order_by_id_desc unsold) <->
                          In p (paintings db) /\ Painting.is_sold p = false)
    by (intros p; apply home_listing_In).
  exists (filter Category.is_featured (categories db)),
         (order_by_id_desc unsold).
  split; [reflexivity |]. split; [reflexivity |]. split; [reflexivity |].
  split; [intros c; apply filter_In |].
  split; [apply order_by_id_desc_perm |].
  split; [exact Hin |].
  split; [apply order_by_id_desc_sorted |].
  apply Forall_forall. intros p Hp. now apply Hin.
Qed.

(** C4: every admin-only view, run with a session that holds no user id,
    answers with a redirect to the login page and changes nothing: no row, no
    session key, no flashed message. *)
Theorem admin_views_redirect_without_login
  (float : string -> option PyFloat.t) (route : AdminRoute)
  (request : Request) (s : Session) (db : Database) :
  is_admin s = false ->
  admin_view float route request s db = reply (Redirect Url_login) s db /\
  response (admin_view float route request s db) = Redirect Url_login /\
  db_after (admin_view float route request s db) = db.
Proof.
  intros H.
  assert (E : admin_view float route request s db
              = reply (Redirect Url_login) s db).
  { destruct route; cbn [admin_view];
      unfold admin, add_painting, add_category, edit_painting,
        delete_painting, toggle_sold, delete_category, edit_category;
      rewrite H; reflexivity. }
  rewrite E. repeat split.
Qed.

Lemma admin_views_redirect_without_login_witness :
  is_admin None = false /\
  db_after
    (admin_view PyFloat.of_string (Route_delete_painting 1)
       {| method := POST; form := [] |} None gallery) = gallery.
Proof.
  split; [reflexivity |].
  apply (admin_views_redirect_without_login PyFloat.of_string
           (Route_delete_painting 1) {| method := POST; form := [] |}
           None gallery).
  reflexivity.
Defined.

(** C5, as stated, fails: the user admin exists and the POST
    [login_no_password] names it without a password field, so no submitted
    password matches; yet the answer is not the login page with the
    message [invalid_credentials] but a server error with no message. *)
Lemma login_without_password_is_server_error :
  In the_admin (users gallery) /\
  form_get "username" (form login_no_password)
  = Some (User.username the_admin) /\
  form_get "password" (form login_no_password) = None /\
  response (login plain_check login_no_password None gallery)
  = InternalServerError /\
  flashed (login plain_check login_no_password None gallery) = [] /\
  ~ (response (login plain_check login_no_password None gallery) = LoginPage /\
     flashed (login plain_check login_no_password None gallery)
     = [("message", invalid_credentials)]).
Proof.
  split; [now left |]. repeat (split; [reflexivity |]).
  intros [H _]. discriminate H.
Qed.

(** C5, amended: a login POST that submits a password succeeds exactly when
    a user carries the submitted username (the first such row; the only one
    when usernames are unique) and the password passes the check against
    that user's hash.  On success the session holds that user's id and the
    answer is a redirect to the admin view; in every other case the login
    page comes back with the one message [invalid_credentials], and the
    session is the one the request came with.  The store is never
    written. *)
Theorem login_succeeds_iff_credentials_match
  (check_password_hash : string -> string -> bool)
  (fields : list (string * string)) (s : Session) (db : Database)
  (pw : string) :
  form_get "password" fields = Some pw ->
  let r := login check_password_hash {| method := POST; form := fields |}
             s db in
  let accepted (u : User.t) :=
    exists name,
      form_get "username" fields = Some name /\
      first_such (user_named name) u (users db) /\
      check_password_hash (User.password_hash u) pw = true in
  db_after r = db /\
  (response r = Redirect Url_admin <-> exists u, accepted u) /\
  (forall u, accepted u ->
             session_after r = Some (User.id u) /\ flashed r = []) /\
  (response r <> Redirect Url_admin ->
   response r = LoginPage /\
   flashed r = [("message", invalid_credentials)] /\
   session_after r = s) /\
  (NoDup (map User.username (users db)) ->
   (response r = Redirect Url_admin <->
    exists name u,
      form_get "username" fields = Some name /\
      In u (users db) /\ User.username u = name /\
      check_password_hash (User.password_hash u) pw = true)).
Proof.
  intros Hpw. cbv zeta.
  assert (Hfirst : forall name u v,
             first_such (user_named name) u (users db) ->
             find_user (Some name) (users db) = Some v -> v = u).
  { intros name u v Hu Hv. apply find_user_first in Hu. congruence. }
  assert (Hunique : forall name u,
             NoDup (map User.username (users db)) ->
             In u (users db) -> User.username u = name ->
             first_such (user_named name) u (users db)).
  { intros name u Hnd Hin Hn.
    exact (first_such_of_unique User.username name u _ Hnd Hin Hn). }
  unfold login. cbn [method form]. rewrite Hpw.
  destruct (form_get "username" fields) as [name |] eqn:Hname.
  - destruct (find_user (Some name) (users db)) as [v |] eqn:Hv.
    + unfold check_password.
      destruct (check_password_hash (User.password_hash v) pw) eqn:E;
        cbn [response flashed session_after db_after reply].
      * split; [reflexivity |]. split; [| split; [| split]].
        -- split; [intros _ | reflexivity].
           exists v, name. split; [reflexivity |].
           split; [now apply find_user_first | exact E].
        -- intros u (n & Hn & Hu & _). injection Hn as <-.
           now rewrite (Hfirst _ _ _ Hu Hv).
        -- intros Hne. now destruct Hne.
        -- intros _. split; [intros _ | reflexivity].
           exists name, v. split; [reflexivity |].
           apply find_user_first in Hv. apply first_such_In in Hv.
           destruct Hv as [Hin Hn]. now repeat split.
      * split; [reflexivity |]. split; [| split; [| split]].
        -- split; [discriminate |].
           intros (u & n & Hn & Hu & Hc). injection Hn as <-.
           rewrite <- (Hfirst _ _ _ Hu Hv) in Hc. congruence.
        -- intros u (n & Hn & Hu & Hc). injection Hn as <-.
           rewrite <- (Hfirst _ _ _ Hu Hv) in Hc. congruence.
        -- intros _. repeat split.
        -- intros Hnd. split; [discriminate |].
           intros (n & u & Hn & Hin & Hu & Hc). injection Hn as <-.
           pose proof (Hunique _ _ Hnd Hin Hu) as Hf.
           rewrite <- (Hfirst _ _ _ Hf Hv) in Hc. congruence.
    + cbn [response flashed session_after db_after].
      pose proof (proj1 (find_user_nobody _ _) Hv) as Hnobody.
      split; [reflexivity |]. split; [| split; [| split]].
      * split; [discriminate |].
        intros (u & n & Hn & Hu & _). injection Hn as <-.
        apply first_such_In in Hu. destruct Hu as [Hin Hu].
        now apply Hnobody in Hin.
      * intros u (n & Hn & Hu & _). injection Hn as <-.
        apply first_such_In in Hu. destruct Hu as [Hin Hu].
        now apply Hnobody in Hin.
      * intros _. repeat split.
      * intros _. split; [discriminate |].
        intros (n & u & Hn & Hin & Hu & _). injection Hn as <-.
        now apply Hnobody in Hin.
  - cbn [find_user response flashed session_after db_after].
    split; [reflexivity |]. split; [| split; [| split]].
    + split; [discriminate |]. intros (u & n & Hn & _). discriminate Hn.
    + intros u (n & Hn & _). discriminate Hn.
    + intros _. repeat split.
    + intros _. split; [discriminate |].
      intros (n & u & Hn & _). discriminate Hn.
Qed.

Lemma login_succeeds_iff_credentials_match_witness :
  form_get "password" [("username", "admin"); ("password", "admin123")]
  = Some "admin123" /\
  session_after
    (login plain_check
       {| method := POST;
          form := [("username", "admin"); ("password", "admin123")] |}
       None gallery) = Some (User.id the_admin).
Proof.
  split; [reflexivity |].
  destruct (login_succeeds_iff_credentials_match plain_check
              [("username", "admin"); ("password", "admin123")] None gallery
              "admin123" eq_refl) as (_ & _ & Hin & _).
  apply (Hin the_admin). exists "admin".
  split; [reflexivity |]. split; [| reflexivity].
  exists [], []. split; [reflexivity |]. split; [reflexivity |].
  intros y [].
Defined.

(** Every row is related to its image under a map. *)
Lemma Forall2_map_self {A : Type} (R : A -> A -> Prop) (f : A -> A)
  (l : list A) :
  (forall x, R x (f x)) -> Forall2 R l (map f l).
Proof.
  intros H. induction l as [| x l IH]; simpl; constructor; auto.
Qed.

(** C10: [toggle_sold] on [painting_id] leaves the users and the categories
    as they are, keeps every painting row in place with its id, title,
    description, price, image_url and category reference, and leaves every
    painting with another id untouched; only [is_sold] of the painting
    addressed can differ. *)
Theorem toggle_sold_changes_only_is_sold (painting_id : Z) (s : Session)
  (db : Database) :
  let r := toggle_sold painting_id s db in
  session_after r = s /\
  users (db_after r) = users db /\
  categories (db_after r) = categories db /\
  Forall2
    (fun p p' =>
       Painting.id p' = Painting.id p /\
       Painting.title p' = Painting.title p /\
       Painting.description p' = Painting.description p /\
       Painting.price p' = Painting.price p /\
       Painting.image_url p' = Painting.image_url p /\
       Painting.category_id p' = Painting.category_id p /\
       (Painting.id p <> painting_id -> p' = p))
    (paintings db) (paintings (db_after r)).
Proof.
  cbv zeta. unfold toggle_sold.
  assert (Hsame : forall ps : list Painting.t,
             Forall2
               (fun p p' =>
                  Painting.id p' = Painting.id p /\
                  Painting.title p' = Painting.title p /\
                  Painting.description p' = Painting.description p /\
                  Painting.price p' = Painting.price p /\
                  Painting.image_url p' = Painting.image_url p /\
                  Painting.category_id p' = Painting.category_id p /\
                  (Painting.id p <> painting_id -> p' = p)) ps ps).
  { intros ps. rewrite <- (map_id ps) at 2.
    apply Forall2_map_self. intros x. repeat split. }
  destruct (negb (is_admin s)); [repeat split; apply Hsame |].
  destruct (get_painting painting_id (paintings db)) as [P |] eqn:Hget;
    [| repeat split; apply Hsame].
  cbn [session_after db_after reply users categories paintings
         with_paintings].
  repeat split.
  rewrite (get_painting_id _ _ _ Hget).
  apply Forall2_map_self. intros x.
  destruct (Painting.id x =? painting_id) eqn:E.
  - repeat split. intros Hne. apply Z.eqb_eq in E. contradiction.
  - repeat split.
Qed.

(** *** Adding and editing paintings *)

(** The id of a new row is larger than every id of the table. *)
Lemma fold_max_above (ids : list Z) (i j : Z) :
  i = j \/ In i ids -> i <= fold_right Z.max j ids.
Proof.
  induction ids as [| k ids IH]; cbn [fold_right In].
  - intros [-> | []]. lia.
  - intros [H | [-> | H]]; [specialize (IH (or_introl H)) | | 
                            specialize (IH (or_intror H))]; lia.
Qed.

Lemma next_id_above (ids : list Z) (i : Z) : In i ids -> i < next_id ids.
Proof.
  destruct ids as [| j ids]; cbn [next_id In]; [contradiction |].
  intros H.
  assert (i <= fold_right Z.max j ids)
    by (apply fold_max_above; destruct H as [-> | H]; auto).
  lia.
Qed.

Lemma next_id_fresh (ps : list Painting.t) :
  ~ In (next_id (map Painting.id ps)) (map Painting.id ps).
Proof.
  intros H. apply next_id_above in H. lia.
Qed.

(** C6, as stated, fails: the submission [dusk_bad_price] names the existing
    category [landscapes], yet [float] raises on its price, the view answers
    with a server error and no painting is created. *)
Lemma add_painting_bad_price_creates_nothing :
  is_admin logged_in = true /\
  form_get "category" (form dusk_bad_price) = Some (Category.name landscapes) /\
  In landscapes (categories gallery) /\
  response (add_painting PyFloat.of_string dusk_bad_price logged_in gallery)
  = InternalServerError /\
  db_after (add_painting PyFloat.of_string dusk_bad_price logged_in gallery)
  = gallery /\
  ~ (exists p,
       paintings
         (db_after
            (add_painting PyFloat.of_string dusk_bad_price logged_in gallery))
       = paintings gallery ++ [p]).
Proof.
  split; [reflexivity |]. split; [reflexivity |]. split; [now left |].
  split; [reflexivity |]. split; [reflexivity |].
  intros [p H]. vm_compute in H. discriminate H.
Qed.

(** C6, amended: for an administrator, a submission whose category name
    no category carries (or that has no category field) is dropped: the
    answer is the redirect to the admin view, nothing is flashed and the
    store is unchanged.  When a category [c] carries the name (the first
    such row), the form carries title, description and image_url, and its
    price text converts to a float other than NaN, exactly one painting is
    appended: it refers to [c], carries the submitted texts and the price as
    the column stores it under an id no painting had, and the users and
    categories are unchanged. *)
Theorem add_painting_drops_or_creates
  (float : string -> option PyFloat.t) (request : Request) (s : Session)
  (db : Database) :
  is_admin s = true ->
  let r := add_painting float request s db in
  let submitted := form_get "category" (form request) in
  ((forall n c, submitted = Some n -> In c (categories db) ->
                Category.name c <> n) ->
   r = reply (Redirect Url_admin) s db) /\
  (forall n c ti de text im v,
     submitted = Some n ->
     first_such (category_named n) c (categories db) ->
     painting_fields (form request) ti de text im ->
     float text = Some v ->
     PyFloat.is_nan v = false ->
     exists p,
       paintings (db_after r) = paintings db ++ [p] /\
       p = Painting.Build (Painting.id p) ti de (PyFloat.stored v) im false
             (Category.id c) /\
       ~ In (Painting.id p) (map Painting.id (paintings db)) /\
       users (db_after r) = users db /\
       categories (db_after r) = categories db /\
       response r = Redirect Url_admin).
Proof.
  intros Hadm. cbv zeta. unfold add_painting.
  rewrite (is_admin_true _ Hadm). split.
  - intros Hnone.
    destruct (form_get "category" (form request)) as [n |];
      [| reflexivity].
    assert (E : find_category (Some n) (categories db) = None).
    { apply find_category_nothing. intros c. now apply Hnone. }
    now rewrite E.
  - intros n c ti de text im v -> Hc [Hti Hde Hpr Him] Hv Hnan.
    apply find_category_first in Hc.
    rewrite Hc, Hti, Hde, Hpr, Him. cbn [float_of_field]. rewrite Hv.
    unfold insert_painting. rewrite Hnan.
    exists (Painting.Build (next_id (map Painting.id (paintings db)))
              ti de (PyFloat.stored v) im false (Category.id c)).
    cbn [db_after reply response paintings users categories with_paintings
           Painting.id].
    split; [reflexivity |]. split; [reflexivity |].
    split; [apply next_id_fresh |]. repeat split.
Qed.

Lemma add_painting_drops_or_creates_witness :
  is_admin logged_in = true /\
  exists p,
    paintings
      (db_after (add_painting PyFloat.of_string dusk_request logged_in gallery))
    = paintings gallery ++ [p] /\
    p = Painting.Build (Painting.id p) "Dusk" "Evening on the river"
          (PyFloat.stored price_80) "dusk.jpg" false
          (Category.id landscapes) /\
    ~ In (Painting.id p) (map Painting.id (paintings gallery)) /\
    users
      (db_after (add_painting PyFloat.of_string dusk_request logged_in gallery))
    = users gallery /\
    categories
      (db_after (add_painting PyFloat.of_string dusk_request logged_in gallery))
    = categories gallery /\
    response (add_painting PyFloat.of_string dusk_request logged_in gallery)
    = Redirect Url_admin.
Proof.
  split; [reflexivity |].
  destruct (add_painting_drops_or_creates PyFloat.of_string dusk_request
              logged_in gallery eq_refl) as [_ Hcreate].
  apply (Hcreate "Landscapes" landscapes "Dusk" "Evening on the river" "80"
           "dusk.jpg" price_80).
  - reflexivity.
  - exists [], []. split; [reflexivity |]. split; [reflexivity |].
    intros y [].
  - constructor; reflexivity.
  - vm_compute. reflexivity.
  - reflexivity.
Defined.

(** C7, as stated, fails: an administrator posts [dusk_bad_price] to the
    edit form of the existing painting [dawn]; [float] raises on the price
    before the commit, and the stored painting keeps its title, description
    and image_url instead of taking the submitted ones. *)
Lemma edit_painting_bad_price_overwrites_nothing :
  is_admin logged_in = true /\
  get_painting 1 (paintings gallery) = Some dawn /\
  response (edit_painting PyFloat.of_string 1 dusk_bad_price logged_in gallery)
  = InternalServerError /\
  get_painting 1
    (paintings
       (db_after
          (edit_painting PyFloat.of_string 1 dusk_bad_price logged_in
             gallery))) = Some dawn /\
  form_get "title" (form dusk_bad_price) = Some "Dusk" /\
  Painting.title dawn <> "Dusk".
Proof.
  repeat split. discriminate.
Qed.

(** C7, amended: for an administrator and an existing painting [P], a POST
    that carries title, description and image_url and whose price text
    converts to a float other than NaN is committed: the painting stored
    under [painting_id] then has the submitted title, description and
    image_url, the submitted price as the column stores it, the id and the
    sold flag of [P], and as category reference the id of the category that
    carries the submitted name (the first such row), or the reference of [P]
    when no category carries it. *)
Theorem edit_painting_overwrites_fields
  (float : string -> option PyFloat.t) (painting_id : Z)
  (fields : list (string * string)) (s : Session) (db : Database)
  (P : Painting.t) (ti de text im : string) (v : PyFloat.t) :
  is_admin s = true ->
  get_painting painting_id (paintings db) = Some P ->
  painting_fields fields ti de text im ->
  float text = Some v ->
  PyFloat.is_nan v = false ->
  let r := edit_painting float painting_id
             {| method := POST; form := fields |} s db in
  let submitted := form_get "category" fields in
  response r = Redirect Url_admin /\
  users (db_after r) = users db /\
  categories (db_after r) = categories db /\
  exists P',
    get_painting painting_id (paintings (db_after r)) = Some P' /\
    Painting.id P' = painting_id /\
    Painting.title P' = ti /\
    Painting.description P' = de /\
    Painting.price P' = PyFloat.stored v /\
    Painting.image_url P' = im /\
    Painting.is_sold P' = Painting.is_sold P /\
    (forall n c, submitted = Some n ->
                 first_such (category_named n) c (categories db) ->
                 Painting.category_id P' = Category.id c) /\
    ((forall n c, submitted = Some n -> In c (categories db) ->
                  Category.name c <> n) ->
     Painting.category_id P' = Painting.category_id P).
Proof.
  intros Hadm Hget [Hti Hde Hpr Him] Hv Hnan. cbv zeta.
  unfold edit_painting. cbn [method form].
  rewrite (is_admin_true _ Hadm), Hget, Hti, Hde, Hpr, Him.
  cbn [float_of_field]. rewrite Hv.
  unfold write_painting. rewrite Hnan.
  cbn [response db_after reply users categories paintings with_paintings].
  split; [reflexivity |]. split; [reflexivity |]. split; [reflexivity |].
  rewrite get_painting_update by reflexivity. rewrite Hget.
  eexists. split; [reflexivity |].
  cbn [Painting.set_details Painting.id Painting.title Painting.description
         Painting.price Painting.image_url Painting.is_sold
         Painting.category_id].
  split; [exact (get_painting_id _ _ _ Hget) |].
  repeat (split; [reflexivity |]).
  split.
  - intros n c -> Hc. apply find_category_first in Hc. now rewrite Hc.
  - intros Hnone.
    destruct (form_get "category" fields) as [n |]; [| reflexivity].
    assert (E : find_category (Some n) (categories db) = None).
    { apply find_category_nothing. intros c. now apply Hnone. }
    now rewrite E.
Qed.

Lemma edit_painting_overwrites_fields_witness :
  is_admin logged_in = true /\
  get_painting 1 (paintings gallery) = Some dawn /\
  painting_fields dawn_retitled "Dawn II" "Later that morning" "80"
    "dawn2.jpg" /\
  PyFloat.of_string "80" = Some price_80 /\
  PyFloat.is_nan price_80 = false /\
  exists P',
    get_painting 1
      (paintings
         (db_after
            (edit_painting PyFloat.of_string 1
               {| method := POST; form := dawn_retitled |} logged_in
               gallery))) = Some P' /\
    Painting.id P' = 1 /\
    Painting.title P' = "Dawn II" /\
    Painting.description P' = "Later that morning" /\
    Painting.price P' = PyFloat.stored price_80 /\
    Painting.image_url P' = "dawn2.jpg" /\
    Painting.is_sold P' = Painting.is_sold dawn /\
    (forall n c,
       form_get "category" dawn_retitled = Some n ->
       first_such (category_named n) c (categories gallery) ->
       Painting.category_id P' = Category.id c) /\
    ((forall n c,
        form_get "category" dawn_retitled = Some n ->
        In c (categories gallery) -> Category.name c <> n) ->
     Painting.category_id P' = Painting.category_id dawn).
Proof.
  assert (Hf : painting_fields dawn_retitled "Dawn II" "Later that morning"
                 "80" "dawn2.jpg") by (constructor; reflexivity).
  assert (Hv : PyFloat.of_string "80" = Some price_80)
    by (vm_compute; reflexivity).
  split; [reflexivity |]. split; [reflexivity |]. split; [exact Hf |].
  split; [exact Hv |]. split; [reflexivity |].
  apply (edit_painting_overwrites_fields PyFloat.of_string 1 dawn_retitled
           logged_in gallery dawn "Dawn II" "Later that morning" "80"
           "dawn2.jpg" price_80 eq_refl eq_refl Hf Hv eq_refl).
Defined.

(** *** Prices *)

(** C8, as stated, fails: the prices of [gallery] are all non-negative; the
    administrator's submission [dusk_negative_price] is accepted, and the
    painting it creates has the price -5. *)
Lemma add_painting_accepts_negative_price :
  is_admin logged_in = true /\
  prices_nonneg gallery = true /\
  response
    (add_painting PyFloat.of_string dusk_negative_price logged_in gallery)
  = Redirect Url_admin /\
  (exists p,
     paintings
       (db_after
          (add_painting PyFloat.of_string dusk_negative_price logged_in
             gallery)) = paintings gallery ++ [p] /\
     PyFloat.of_string "-5" = Some (Painting.price p) /\
     PyFloat.ltb (Painting.price p) PyFloat.zero = true /\
     PyFloat.leb PyFloat.zero (Painting.price p) = false) /\
  prices_nonneg
    (db_after
       (add_painting PyFloat.of_string dusk_negative_price logged_in gallery))
  = false.
Proof.
  split; [reflexivity |]. split; [vm_compute; reflexivity |].
  split; [vm_compute; reflexivity |]. split.
  - eexists. split; [vm_compute; reflexivity |].
    split; vm_compute; auto.
  - vm_compute. reflexivity.
Qed.

Lemma forallb_update_painting (ok : Painting.t -> bool) (painting_id : Z)
  (f : Painting.t -> Painting.t) (ps : list Painting.t) :
  (forall p, ok (f p) = true) ->
  forallb ok ps = true ->
  forallb ok (update_painting painting_id f ps) = true.
Proof.
  intros Hf. unfold update_painting.
  induction ps as [| q ps IH]; simpl; [reflexivity |].
  intros H. apply andb_true_iff in H. destruct H as [Hq Hps].
  apply andb_true_iff. split; [| now apply IH].
  destruct (Painting.id q =? painting_id); [apply Hf | exact Hq].
Qed.

(** C8, amended: [add_painting] and [edit_painting] store the float the
    submitted price converts to and do not look at its sign.  They keep
    every price of the store non-negative whenever the price the form
    carries, if it converts at all, converts to a float [>= 0]. *)
Theorem prices_nonneg_preserved
  (float : string -> option PyFloat.t) (painting_id : Z) (request : Request)
  (s : Session) (db : Database) :
  prices_nonneg db = true ->
  (forall text v,
     form_get "price" (form request) = Some text ->
     float text = Some v ->
     PyFloat.leb PyFloat.zero v = true) ->
  prices_nonneg (db_after (add_painting float request s db)) = true /\
  prices_nonneg (db_after (edit_painting float painting_id request s db))
  = true.
Proof.
  intros Hdb Hprice. split.
  - unfold add_painting.
    destruct (negb (is_admin s)); [exact Hdb |].
    destruct (find_category _ _); [| exact Hdb].
    destruct (form_get "price" (form request)) as [text |] eqn:Hpr;
      cbn [float_of_field]; [| exact Hdb].
    destruct (float text) as [v |] eqn:Hv; [| exact Hdb].
    unfold insert_painting.
    destruct (form_get "title" _); [| exact Hdb].
    destruct (form_get "description" _); [| exact Hdb].
    destruct (form_get "image_url" _); [| exact Hdb].
    destruct (PyFloat.is_nan v); [exact Hdb |].
    cbn [db_after reply]. unfold prices_nonneg in *.
    cbn [paintings with_paintings].
    rewrite forallb_app, Hdb. cbn [forallb Painting.price andb].
    now rewrite leb_zero_stored, (Hprice text v eq_refl Hv).
  - unfold edit_painting.
    destruct (negb (is_admin s)); [exact Hdb |].
    destruct (get_painting _ _); [| exact Hdb].
    destruct (method request); [exact Hdb |].
    destruct (form_get "price" (form request)) as [text |] eqn:Hpr;
      cbn [float_of_field]; [| exact Hdb].
    destruct (float text) as [v |] eqn:Hv; [| exact Hdb].
    unfold write_painting.
    destruct (form_get "title" _); [| exact Hdb].
    destruct (form_get "description" _); [| exact Hdb].
    destruct (form_get "image_url" _); [| exact Hdb].
    destruct (PyFloat.is_nan v); [exact Hdb |].
    cbn [db_after reply]. unfold prices_nonneg in *.
    cbn [paintings with_paintings].
    apply forallb_update_painting; [| exact Hdb].
    intros p. cbn [Painting.set_details Painting.price].
    rewrite leb_zero_stored. exact (Hprice text v eq_refl Hv).
Qed.

Lemma prices_nonneg_preserved_witness :
  prices_nonneg gallery = true /\
  (forall text v,
     form_get "price" (form dusk_request) = Some text ->
     PyFloat.of_string text = Some v ->
     PyFloat.leb PyFloat.zero v = true) /\
  prices_nonneg
    (db_after (add_painting PyFloat.of_string dusk_request logged_in gallery))
  = true /\
  prices_nonneg
    (db_after
       (edit_painting PyFloat.of_string 1 dusk_request logged_in gallery))
  = true.
Proof.
  assert (Hdb : prices_nonneg gallery = true) by (vm_compute; reflexivity).
  assert (Hprice : forall text v,
             form_get "price" (form dusk_request) = Some text ->
             PyFloat.of_string text = Some v ->
             PyFloat.leb PyFloat.zero v = true).
  { intros text v Ht Hv. vm_compute in Ht.
    injection Ht as <-. vm_compute in Hv. injection Hv as <-.
    vm_compute. reflexivity. }
  split; [exact Hdb |]. split; [exact Hprice |].
  exact (prices_nonneg_preserved PyFloat.of_string 1 dusk_request logged_in
           gallery Hdb Hprice).
Defined.

(** *** New paintings *)

(** C9: a painting that [add_painting] has put into the store, one that was
    not there before, has [is_sold = false], and the home page rendered on
    the resulting store shows it. *)
Theorem add_painting_starts_unsold
  (float : string -> option PyFloat.t) (request : Request) (s : Session)
  (db : Database) (p : Painting.t) :
  In p (paintings (db_after (add_painting float request s db))) ->
  ~ In p (paintings db) ->
  Painting.is_sold p = false /\
  exists featured shown,
    response
      (home (session_after (add_painting float request s db))
         (db_after (add_painting float request s db)))
    = IndexPage featured shown /\
    In p shown.
Proof.
  intros Hin Hnew.
  assert (Hsold : Painting.is_sold p = false).
  { revert Hin. unfold add_painting.
    destruct (negb (is_admin s)); [intros H; now apply Hnew in H |].
    destruct (find_category _ _); [| intros H; now apply Hnew in H].
    destruct (float_of_field float _) as [v |];
      [| intros H; now apply Hnew in H].
    unfold insert_painting.
    destruct (form_get "title" _); [| intros H; now apply Hnew in H].
    destruct (form_get "description" _); [| intros H; now apply Hnew in H].
    destruct (form_get "image_url" _); [| intros H; now apply Hnew in H].
    destruct (PyFloat.is_nan v); [intros H; now apply Hnew in H |].
    cbn [db_after reply paintings with_paintings].
    intros H. apply in_app_or in H.
    destruct H as [H | [<- | []]]; [now apply Hnew in H | reflexivity]. }
  split; [exact Hsold |].
  unfold home. cbn [response reply].
  eexists. eexists. split; [reflexivity |].
  apply home_listing_In. now split.
Qed.

Lemma add_painting_starts_unsold_witness :
  In dusk
    (paintings
       (db_after
          (add_painting PyFloat.of_string dusk_request logged_in gallery))) /\
  ~ In dusk (paintings gallery) /\
  Painting.is_sold dusk = false.
Proof.
  assert (Hin : In dusk
                  (paintings
                     (db_after
                        (add_painting PyFloat.of_string dusk_request
                           logged_in gallery))))
    by (vm_compute; right; left; reflexivity).
  assert (Hnew : ~ In dusk (paintings gallery))
    by (intros [H | []]; discriminate H).
  split; [exact Hin |]. split; [exact Hnew |].
  apply (add_painting_starts_unsold PyFloat.of_string dusk_request logged_in
           gallery dusk Hin Hnew).
Defined.

(** ** Further properties of the views *)

(** *** Lookups *)

Lemma get_painting_none (pid : Z) (ps : list Painting.t) :
  (forall p, In p ps -> Painting.id p <> pid) -> get_painting pid ps = None.
Proof.
  intros H. destruct (get_painting pid ps) as [p |] eqn:E; [| reflexivity].
  pose proof (get_painting_id _ _ _ E) as Hid.
  apply get_painting_row in E. now apply H in E.
Qed.

Lemma get_category_none (cid : Z) (cs : list Category.t) :
  (forall c, In c cs -> Category.id c <> cid) -> get_category cid cs = None.
Proof.
  intros H. destruct (get_category cid cs) as [c |] eqn:E; [| reflexivity].
  apply get_category_some in E. destruct E as [_ E].
  apply find_some in E. destruct E as [Hin Hid].
  apply Z.eqb_eq in Hid. now apply H in Hin.
Qed.

(** An id the driver cannot bind finds no row, whatever the table holds. *)
Lemma get_painting_unbound (pid : Z) (ps : list Painting.t) :
  sqlite_int pid = false -> get_painting pid ps = None.
Proof. unfold get_painting. now intros ->. Qed.

Lemma get_category_unbound (cid : Z) (cs : list Category.t) :
  sqlite_int cid = false -> get_category cid cs = None.
Proof. unfold get_category. now intros ->. Qed.

(** With unique ids every row is the one found under its id. *)
Lemma get_painting_of_row (ps : list Painting.t) (p : Painting.t) :
  sqlite_int (Painting.id p) = true ->
  NoDup (map Painting.id ps) -> In p ps ->
  get_painting (Painting.id p) ps = Some p.
Proof.
  unfold get_painting. intros ->.
  induction ps as [| q ps IH]; cbn [map In find]; [contradiction |].
  intros Hnd Hin. apply NoDup_cons_iff in Hnd. destruct Hnd as [Hq Hnd].
  destruct Hin as [-> | Hin].
  - now rewrite Z.eqb_refl.
  - destruct (Painting.id q =? Painting.id p) eqn:E; [| now apply IH].
    apply Z.eqb_eq in E. exfalso. apply Hq. rewrite E.
    now apply in_map.
Qed.

Lemma update_painting_ids (pid : Z) (f : Painting.t -> Painting.t)
  (ps : list Painting.t) :
  (forall p, Painting.id (f p) = Painting.id p) ->
  map Painting.id (update_painting pid f ps) = map Painting.id ps.
Proof.
  intros Hf. unfold update_painting. rewrite map_map.
  apply map_ext. intros p. now destruct (Painting.id p =? pid).
Qed.

Lemma update_category_ids (cid : Z) (f : Category.t -> Category.t)
  (cs : list Category.t) :
  (forall c, Category.id (f c) = Category.id c) ->
  map Category.id (update_category cid f cs) = map Category.id cs.
Proof.
  intros Hf. unfold update_category. rewrite map_map.
  apply map_ext. intros c. now destruct (Category.id c =? cid).
Qed.

(** The guard of the admin views, on both sides. *)
Lemma admin_view_guarded (float : string -> option PyFloat.t)
  (route : AdminRoute) (request : Request) (s : Session) (db : Database) :
  is_admin s = false ->
  admin_view float route request s db = reply (Redirect Url_login) s db.
Proof.
  intros H.
  destruct route; cbn [admin_view];
    unfold admin, add_painting, add_category, edit_painting,
      delete_painting, toggle_sold, delete_category, edit_category;
    now rewrite H.
Qed.

(** *** What no view writes *)

(** X1: the public views, [login] and [logout] leave the whole store as it
    is, and no admin view ever changes the users table: the web surface
    creates, edits and deletes no user. *)
Theorem views_never_write_users
  (float : string -> option PyFloat.t)
  (check_password_hash : string -> string -> bool)
  (route : AdminRoute) (request : Request) (name : string) (product_id : Z)
  (s : Session) (db : Database) :
  db_after (home s db) = db /\
  db_after (category_page name s db) = db /\
  db_after (product product_id s db) = db /\
  db_after (login check_password_hash request s db) = db /\
  db_after (logout s db) = db /\
  users (db_after (admin_view float route request s db)) = users db.
Proof.
  split; [reflexivity |].
  split; [unfold category_page; now destruct (find_category _ _) |].
  split; [unfold product; now destruct (get_painting _ _) |].
  split.
  { unfold login. destruct (method request); [reflexivity |].
    destruct (find_user _ _) as [u |]; [| reflexivity].
    destruct (form_get "password" _); [| reflexivity].
    now destruct (check_password _ u _). }
  split; [reflexivity |].
  destruct (is_admin s) eqn:Hadm;
    [| now rewrite admin_view_guarded].
  destruct route; cbn [admin_view].
  - unfold admin. now rewrite Hadm.
  - unfold add_painting. rewrite Hadm. cbn [negb].
    destruct (find_category _ _); [| reflexivity].
    destruct (float_of_field _ _); [| reflexivity].
    now destruct (insert_painting _ _ _ _ _ _).
  - unfold add_category. rewrite Hadm. cbn [negb].
    now destruct (insert_category _ _ _ _).
  - unfold edit_painting. rewrite Hadm. cbn [negb].
    destruct (get_painting _ _); [| reflexivity].
    destruct (method request); [reflexivity |].
    destruct (float_of_field _ _); [| reflexivity].
    now destruct (write_painting _ _ _ _ _ _ _).
  - unfold delete_painting. rewrite Hadm. cbn [negb].
    now destruct (get_painting _ _).
  - unfold toggle_sold. rewrite Hadm. cbn [negb].
    now destruct (get_painting _ _).
  - unfold delete_category. rewrite Hadm. cbn [negb].
    now destruct (get_category _ _).
  - unfold edit_category. rewrite Hadm. cbn [negb].
    destruct (get_category _ _); [| reflexivity].
    destruct (method request); [reflexivity |].
    now destruct (write_category _ _ _ _ _) as [[w cs] |].
Qed.

(** *** Ids that no row carries *)

(** X2: for an id that SQLite can hold, [product] and, for an
    administrator, [edit_painting], [delete_painting] and [toggle_sold]
    answer 404 when no painting has the id, and [edit_category] and
    [delete_category] answer 404 when no category has it.  For an id beyond
    the 64-bit integers all six answer with a server error, whatever the
    store holds.  In each case the store and the session are untouched. *)
Theorem unknown_id_not_found_or_overflow
  (float : string -> option PyFloat.t) (i : Z) (request : Request)
  (s : Session) (db : Database) :
  is_admin s = true ->
  (sqlite_int i = true ->
   ((forall p, In p (paintings db) -> Painting.id p <> i) ->
    product i s db = reply NotFound s db /\
    edit_painting float i request s db = reply NotFound s db /\
    delete_painting i s db = reply NotFound s db /\
    toggle_sold i s db = reply NotFound s db) /\
   ((forall c, In c (categories db) -> Category.id c <> i) ->
    edit_category i request s db = reply NotFound s db /\
    delete_category i s db = reply NotFound s db)) /\
  (sqlite_int i = false ->
   product i s db = reply InternalServerError s db /\
   edit_painting float i request s db = reply InternalServerError s db /\
   delete_painting i s db = reply InternalServerError s db /\
   toggle_sold i s db = reply InternalServerError s db /\
   edit_category i request s db = reply InternalServerError s db /\
   delete_category i s db = reply InternalServerError s db).
Proof.
  intros Hadm. split; intros Hi.
  - split; intros H.
    + apply get_painting_none in H.
      unfold product, edit_painting, delete_painting, toggle_sold, no_row.
      rewrite Hadm, H, Hi. repeat split.
    + apply get_category_none in H.
      unfold edit_category, delete_category, no_row.
      rewrite Hadm, H, Hi. repeat split.
  - unfold product, edit_painting, delete_painting, toggle_sold,
      edit_category, delete_category, no_row.
    rewrite Hadm, (get_painting_unbound _ _ Hi),
      (get_category_unbound _ _ Hi), Hi.
    repeat split.
Qed.

Lemma unknown_id_not_found_or_overflow_witness :
  is_admin logged_in = true /\
  sqlite_int 7 = true /\
  (forall p, In p (paintings gallery) -> Painting.id p <> 7) /\
  toggle_sold 7 logged_in gallery = reply NotFound logged_in gallery /\
  sqlite_int (2 ^ 63) = false /\
  toggle_sold (2 ^ 63) logged_in gallery
  = reply InternalServerError logged_in gallery.
Proof.
  assert (H : forall p, In p (paintings gallery) -> Painting.id p <> 7)
    by (intros p [<- | []]; discriminate).
  split; [reflexivity |]. split; [reflexivity |]. split; [exact H |].
  split.
  - destruct (unknown_id_not_found_or_overflow PyFloat.of_string 7
                dusk_request logged_in gallery eq_refl) as [Hin _].
    destruct (Hin eq_refl) as [Hp _]. apply (Hp H).
  - split; [reflexivity |].
    destruct (unknown_id_not_found_or_overflow PyFloat.of_string (2 ^ 63)
                dusk_request logged_in gallery eq_refl) as [_ Hout].
    apply (Hout eq_refl).
Defined.

(** *** Sessions *)

(** X3: [logout] redirects to the home page, and after it every admin view
    answers with the redirect to the login page and leaves the store as it
    was, whoever was logged in. *)
Theorem logout_closes_admin_views
  (float : string -> option PyFloat.t) (route : AdminRoute)
  (request : Request) (s : Session) (db : Database) :
  response (logout s db) = Redirect Url_home /\
  admin_view float route request (session_after (logout s db))
    (db_after (logout s db))
  = reply (Redirect Url_login) None db.
Proof.
  split; [reflexivity |].
  cbn [logout reply session_after db_after].
  now apply admin_view_guarded.
Qed.

(** X4: a login that finds the user and passes the password check opens the
    dashboard: [admin], run with the session and store the login leaves,
    renders every painting and every category of the store. *)
Theorem login_opens_dashboard
  (check_password_hash : string -> string -> bool)
  (fields : list (string * string)) (s : Session) (db : Database)
  (u : User.t) (pw : string) :
  find_user (form_get "username" fields) (users db) = Some u ->
  form_get "password" fields = Some pw ->
  check_password_hash (User.password_hash u) pw = true ->
  let r := login check_password_hash {| method := POST; form := fields |}
             s db in
  admin (session_after r) (db_after r)
  = reply (AdminPage (paintings db) (categories db)) (Some (User.id u)) db.
Proof.
  intros Hu Hpw Hc. cbv zeta. unfold login. cbn [method form].
  rewrite Hu, Hpw. unfold check_password. rewrite Hc. reflexivity.
Qed.

Lemma login_opens_dashboard_witness :
  find_user (form_get "username" (form (login_request "admin" "admin123")))
    (users gallery) = Some the_admin /\
  form_get "password" (form (login_request "admin" "admin123"))
  = Some "admin123" /\
  plain_check (User.password_hash the_admin) "admin123" = true /\
  admin
    (session_after
       (login plain_check (login_request "admin" "admin123") None gallery))
    (db_after
       (login plain_check (login_request "admin" "admin123") None gallery))
  = reply (AdminPage (paintings gallery) (categories gallery))
      (Some (User.id the_admin)) gallery.
Proof.
  split; [reflexivity |]. split; [reflexivity |]. split; [reflexivity |].
  exact (login_opens_dashboard plain_check
           (form (login_request "admin" "admin123")) None gallery the_admin
           "admin123" eq_refl eq_refl eq_refl).
Defined.

(** *** Deleting a painting *)

Lemma delete_painting_found (painting_id : Z) (s : Session) (db : Database)
  (P : Painting.t) :
  is_admin s = true ->
  get_painting painting_id (paintings db) = Some P ->
  delete_painting painting_id s db
  = reply (Redirect Url_admin) s
      (with_paintings (remove_painting painting_id (paintings db)) db).
Proof.
  intros Hadm Hget. unfold delete_painting.
  now rewrite Hadm, Hget, (get_painting_id _ _ _ Hget).
Qed.

Lemma remove_painting_In (pid : Z) (ps : list Painting.t) (q : Painting.t) :
  In q (remove_painting pid ps) <-> In q ps /\ Painting.id q <> pid.
Proof.
  unfold remove_painting. rewrite filter_In, negb_true_iff, Z.eqb_neq.
  reflexivity.
Qed.

(** X5: for an administrator and an existing painting, [delete_painting]
    removes the rows with that id and nothing else: the paintings left are
    exactly the former ones with another id, and users and categories are
    unchanged. *)
Theorem delete_painting_removes_the_row (painting_id : Z) (s : Session)
  (db : Database) (P : Painting.t) :
  is_admin s = true ->
  get_painting painting_id (paintings db) = Some P ->
  let r := delete_painting painting_id s db in
  response r = Redirect Url_admin /\
  session_after r = s /\
  users (db_after r) = users db /\
  categories (db_after r) = categories db /\
  (forall q, In q (paintings (db_after r)) <->
             In q (paintings db) /\ Painting.id q <> painting_id).
Proof.
  intros Hadm Hget. cbv zeta.
  rewrite (delete_painting_found _ _ _ _ Hadm Hget).
  cbn [response session_after db_after reply users categories paintings
         with_paintings].
  repeat (split; [reflexivity |]).
  intros q. apply remove_painting_In.
Qed.

Lemma delete_painting_removes_the_row_witness :
  is_admin logged_in = true /\
  get_painting 1 (paintings gallery) = Some dawn /\
  response (delete_painting 1 logged_in gallery) = Redirect Url_admin.
Proof.
  split; [reflexivity |]. split; [reflexivity |].
  apply (delete_painting_removes_the_row 1 logged_in gallery dawn);
    reflexivity.
Defined.

(** X6: once a painting is deleted its id is gone: the product page of the
    id answers 404, and a second [delete_painting] of the same id answers 404
    as well and changes nothing more. *)
Theorem delete_painting_then_not_found (painting_id : Z) (s : Session)
  (db : Database) (P : Painting.t) :
  is_admin s = true ->
  get_painting painting_id (paintings db) = Some P ->
  let r := delete_painting painting_id s db in
  product painting_id (session_after r) (db_after r)
  = reply NotFound s (db_after r) /\
  delete_painting painting_id (session_after r) (db_after r)
  = reply NotFound s (db_after r).
Proof.
  intros Hadm Hget. cbv zeta.
  rewrite (delete_painting_found _ _ _ _ Hadm Hget).
  cbn [session_after db_after reply].
  assert (Hnone : get_painting painting_id
                    (remove_painting painting_id (paintings db)) = None).
  { apply get_painting_none. intros q Hq.
    now apply remove_painting_In in Hq. }
  pose proof (get_painting_some _ _ _ Hget) as [Hi _].
  unfold product, delete_painting, no_row. cbn [paintings with_paintings].
  now rewrite Hadm, Hnone, Hi.
Qed.

Lemma delete_painting_then_not_found_witness :
  is_admin logged_in = true /\
  get_painting 1 (paintings gallery) = Some dawn /\
  product 1 (session_after (delete_painting 1 logged_in gallery))
    (db_after (delete_painting 1 logged_in gallery))
  = reply NotFound logged_in (db_after (delete_painting 1 logged_in gallery)).
Proof.
  split; [reflexivity |]. split; [reflexivity |].
  apply (delete_painting_then_not_found 1 logged_in gallery dawn);
    reflexivity.
Defined.

(** *** Pages of a painting *)

Lemma get_painting_appended (ps : list Painting.t) (p : Painting.t) :
  sqlite_int (Painting.id p) = true ->
  ~ In (Painting.id p) (map Painting.id ps) ->
  get_painting (Painting.id p) (ps ++ [p]) = Some p.
Proof.
  unfold get_painting. intros ->.
  induction ps as [| q ps IH]; cbn [app find map In]; intros H.
  - now rewrite Z.eqb_refl.
  - destruct (Painting.id q =? Painting.id p) eqn:E.
    + apply Z.eqb_eq in E. exfalso. apply H. now left.
    + apply IH. intros Hin. apply H. now right.
Qed.

Lemma find_category_by_own_name (name : option string)
  (cs : list Category.t) (c : Category.t) :
  find_category name cs = Some c ->
  find_category (Some (Category.name c)) cs = Some c.
Proof.
  destruct name as [n |]; cbn [find_category]; [| discriminate].
  intros H. pose proof (find_some _ _ H) as [_ Hn].
  apply String.eqb_eq in Hn. now rewrite Hn.
Qed.

(** X7: a painting that [add_painting] accepts can be looked up at once,
    as long as the id it is given is one SQLite can hold: the product page
    of the new id renders it with the submitted texts and the price as the
    column stores it, and the page of its category lists it. *)
Theorem add_painting_then_pages
  (float : string -> option PyFloat.t) (request : Request) (s : Session)
  (db : Database) (c : Category.t) (ti de text im : string)
  (v : PyFloat.t) :
  is_admin s = true ->
  find_category (form_get "category" (form request)) (categories db)
  = Some c ->
  painting_fields (form request) ti de text im ->
  float text = Some v ->
  PyFloat.is_nan v = false ->
  sqlite_int (next_id (map Painting.id (paintings db))) = true ->
  let r := add_painting float request s db in
  exists p shown,
    p = Painting.Build (Painting.id p) ti de (PyFloat.stored v) im false
          (Category.id c) /\
    product (Painting.id p) (session_after r) (db_after r)
    = reply (ProductPage p) s (db_after r) /\
    response (category_page (Category.name c) (session_after r) (db_after r))
    = CategoryPage shown (Category.name c) /\
    In p shown.
Proof.
  intros Hadm Hc [Hti Hde Hpr Him] Hv Hnan Hid. cbv zeta.
  unfold add_painting. rewrite Hadm, Hc, Hti, Hde, Hpr, Him.
  cbn [negb float_of_field]. rewrite Hv.
  unfold insert_painting. rewrite Hnan.
  cbn [session_after db_after reply].
  set (p := Painting.Build (next_id (map Painting.id (paintings db)))
              ti de (PyFloat.stored v) im false (Category.id c)).
  exists p. eexists.
  split; [reflexivity |].
  unfold product, category_page.
  cbn [paintings categories with_paintings].
  rewrite (find_category_by_own_name _ _ _ Hc).
  replace (next_id (map Painting.id (paintings db))) with (Painting.id p)
    by reflexivity.
  rewrite get_painting_appended by (exact Hid || apply next_id_fresh).
  split; [reflexivity |]. split; [reflexivity |].
  apply filter_In. split.
  - apply in_or_app. right. now left.
  - cbn [Painting.category_id Painting.is_sold p negb].
    now rewrite Z.eqb_refl.
Qed.

Lemma add_painting_then_pages_witness :
  is_admin logged_in = true /\
  find_category (form_get "category" (form dusk_request)) (categories gallery)
  = Some landscapes /\
  painting_fields (form dusk_request) "Dusk" "Evening on the river" "80"
    "dusk.jpg" /\
  PyFloat.of_string "80" = Some price_80 /\
  PyFloat.is_nan price_80 = false /\
  sqlite_int (next_id (map Painting.id (paintings gallery))) = true /\
  exists p shown,
    p = Painting.Build (Painting.id p) "Dusk" "Evening on the river"
          (PyFloat.stored price_80) "dusk.jpg" false
          (Category.id landscapes) /\
    product (Painting.id p)
      (session_after
         (add_painting PyFloat.of_string dusk_request logged_in gallery))
      (db_after
         (add_painting PyFloat.of_string dusk_request logged_in gallery))
    = reply (ProductPage p) logged_in
        (db_after
           (add_painting PyFloat.of_string dusk_request logged_in gallery)) /\
    response
      (category_page (Category.name landscapes)
         (session_after
            (add_painting PyFloat.of_string dusk_request logged_in gallery))
         (db_after
            (add_painting PyFloat.of_string dusk_request logged_in gallery)))
    = CategoryPage shown (Category.name landscapes) /\
    In p shown.
Proof.
  assert (Hf : painting_fields (form dusk_request) "Dusk"
                 "Evening on the river" "80" "dusk.jpg")
    by (constructor; reflexivity).
  assert (Hv : PyFloat.of_string "80" = Some price_80)
    by (vm_compute; reflexivity).
  split; [reflexivity |]. split; [reflexivity |]. split; [exact Hf |].
  split; [exact Hv |]. split; [reflexivity |]. split; [reflexivity |].
  exact (add_painting_then_pages PyFloat.of_string dusk_request logged_in
           gallery landscapes "Dusk" "Evening on the river" "80" "dusk.jpg"
           price_80 eq_refl eq_refl Hf Hv eq_refl eq_refl).
Defined.

(** X8: [category_page] answers 404 when no category carries the name.
    When one does, it lists exactly the unsold paintings that refer to the
    category found, and each of them is also on the home page. *)
Theorem category_page_lists_unsold_of_category (name : string) (s : Session)
  (db : Database) :
  ((forall c, In c (categories db) -> Category.name c <> name) ->
   category_page name s db = reply NotFound s db) /\
  (forall c,
     find_category (Some name) (categories db) = Some c ->
     exists shown,
       category_page name s db = reply (CategoryPage shown name) s db /\
       (forall p, In p shown <->
                  In p (paintings db) /\
                  Painting.category_id p = Category.id c /\
                  Painting.is_sold p = false) /\
       (forall featured listed,
          response (home s db) = IndexPage featured listed ->
          incl shown listed)).
Proof.
  split.
  - intros H. unfold category_page, find_category.
    destruct (find _ (categories db)) as [c |] eqn:E; [| reflexivity].
    apply find_some in E. destruct E as [Hin Hn].
    apply String.eqb_eq in Hn. now apply H in Hin.
  - intros c Hc. unfold category_page. rewrite Hc.
    pose proof (find_some _ _ Hc) as [_ Hn]. apply String.eqb_eq in Hn.
    rewrite Hn. eexists. split; [reflexivity |].
    assert (Hshown : forall p,
               In p (filter
                       (fun p => (Painting.category_id p =? Category.id c)
                                 && negb (Painting.is_sold p))
                       (paintings db)) <->
               In p (paintings db) /\
               Painting.category_id p = Category.id c /\
               Painting.is_sold p = false).
    { intros p. rewrite filter_In, andb_true_iff, Z.eqb_eq, negb_true_iff.
      reflexivity. }
    split; [exact Hshown |].
    intros featured listed Hhome p Hp.
    unfold home in Hhome. cbn [response reply] in Hhome.
    injection Hhome as _ <-.
    apply home_listing_In. apply Hshown in Hp. tauto.
Qed.

(** X9: when the ids of the paintings are unique, the product page of the
    id of any painting of the store renders that painting, sold or not.  (A
    row whose id lay beyond the 64-bit integers, which SQLite cannot hold,
    would get the server error of the driver instead.) *)
Theorem product_shows_every_painting (s : Session) (db : Database)
  (p : Painting.t) :
  NoDup (map Painting.id (paintings db)) ->
  In p (paintings db) ->
  product (Painting.id p) s db
  = reply (if sqlite_int (Painting.id p)
           then ProductPage p
           else InternalServerError) s db.
Proof.
  intros Hnd Hin. unfold product, no_row.
  destruct (sqlite_int (Painting.id p)) eqn:Hi.
  - now rewrite (get_painting_of_row _ _ Hi Hnd Hin).
  - now rewrite (get_painting_unbound _ _ Hi).
Qed.

Lemma product_shows_every_painting_witness :
  NoDup (map Painting.id (paintings gallery)) /\
  In dawn (paintings gallery) /\
  product (Painting.id dawn) None gallery
  = reply (ProductPage dawn) None gallery.
Proof.
  assert (Hnd : NoDup (map Painting.id (paintings gallery)))
    by (repeat constructor; intros []).
  assert (Hin : In dawn (paintings gallery)) by (left; reflexivity).
  split; [exact Hnd |]. split; [exact Hin |].
  exact (product_shows_every_painting None gallery dawn Hnd Hin).
Defined.

(** *** Sold paintings and the home page *)

(** X10: for an administrator, [toggle_sold] on an unsold painting takes
    every painting of that id off the home page, and on a sold painting it
    puts the painting, now unsold, onto the home page. *)
Theorem toggle_sold_switches_home_listing (painting_id : Z) (s : Session)
  (db : Database) (P : Painting.t) (featured : list Category.t)
  (listed : list Painting.t) :
  is_admin s = true ->
  get_painting painting_id (paintings db) = Some P ->
  response
    (home (session_after (toggle_sold painting_id s db))
       (db_after (toggle_sold painting_id s db)))
  = IndexPage featured listed ->
  (Painting.is_sold P = false ->
   forall q, In q listed -> Painting.id q <> painting_id) /\
  (Painting.is_sold P = true ->
   In (Painting.set_is_sold false P) listed).
Proof.
  intros Hadm Hget.
  rewrite (toggle_sold_found _ _ _ _ Hadm Hget).
  unfold home. cbn [response reply session_after db_after paintings
                      with_paintings].
  intros Hhome. injection Hhome as _ <-. split.
  - intros Hsold q Hq. apply home_listing_In in Hq.
    destruct Hq as [Hq Hunsold].
    unfold update_painting in Hq. apply in_map_iff in Hq.
    destruct Hq as [q0 [Hq0 _]].
    destruct (Painting.id q0 =? painting_id) eqn:E.
    + subst q. rewrite Hsold in Hunsold. discriminate Hunsold.
    + subst q. now apply Z.eqb_neq.
  - intros Hsold. apply home_listing_In. split; [| reflexivity].
    unfold update_painting. apply in_map_iff. exists P. split.
    + rewrite (get_painting_id _ _ _ Hget), Z.eqb_refl, Hsold. reflexivity.
    + exact (get_painting_row _ _ _ Hget).
Qed.

Lemma toggle_sold_switches_home_listing_witness :
  is_admin logged_in = true /\
  get_painting 1 (paintings gallery) = Some dawn /\
  response
    (home (session_after (toggle_sold 1 logged_in gallery))
       (db_after (toggle_sold 1 logged_in gallery)))
  = IndexPage [landscapes] [] /\
  Painting.is_sold dawn = false /\
  forall q, In q [] -> Painting.id q <> 1.
Proof.
  assert (Hhome : response
                    (home (session_after (toggle_sold 1 logged_in gallery))
                       (db_after (toggle_sold 1 logged_in gallery)))
                  = IndexPage [landscapes] [])
    by (vm_compute; reflexivity).
  split; [reflexivity |]. split; [reflexivity |]. split; [exact Hhome |].
  split; [reflexivity |].
  destruct (toggle_sold_switches_home_listing 1 logged_in gallery dawn
              [landscapes] [] eq_refl eq_refl Hhome) as [Hoff _].
  exact (Hoff eq_refl).
Defined.

(** *** The frame of an edit *)

(** X11: whatever is submitted, [edit_painting] leaves users and categories
    as they are, keeps every painting row in place with its id and its sold
    flag, and leaves every painting with another id untouched. *)
Theorem edit_painting_keeps_the_rest
  (float : string -> option PyFloat.t) (painting_id : Z) (request : Request)
  (s : Session) (db : Database) :
  let r := edit_painting float painting_id request s db in
  session_after r = s /\
  users (db_after r) = users db /\
  categories (db_after r) = categories db /\
  Forall2
    (fun p p' =>
       Painting.id p' = Painting.id p /\
       Painting.is_sold p' = Painting.is_sold p /\
       (Painting.id p <> painting_id -> p' = p))
    (paintings db) (paintings (db_after r)).
Proof.
  cbv zeta.
  assert (Hsame : forall ps : list Painting.t,
             Forall2
               (fun p p' =>
                  Painting.id p' = Painting.id p /\
                  Painting.is_sold p' = Painting.is_sold p /\
                  (Painting.id p <> painting_id -> p' = p)) ps ps).
  { intros ps. rewrite <- (map_id ps) at 2.
    apply Forall2_map_self. intros x. repeat split. }
  unfold edit_painting.
  destruct (negb (is_admin s)); [repeat split; apply Hsame |].
  destruct (get_painting painting_id (paintings db)) as [P |];
    [| repeat split; apply Hsame].
  destruct (method request); [repeat split; apply Hsame |].
  destruct (float_of_field float _) as [v |]; [| repeat split; apply Hsame].
  unfold write_painting.
  destruct (form_get "title" _); [| repeat split; apply Hsame].
  destruct (form_get "description" _); [| repeat split; apply Hsame].
  destruct (form_get "image_url" _); [| repeat split; apply Hsame].
  destruct (PyFloat.is_nan v); [repeat split; apply Hsame |].
  cbn [session_after db_after reply users categories paintings
         with_paintings].
  repeat split.
  apply Forall2_map_self. intros x.
  destruct (Painting.id x =? painting_id) eqn:E.
  - repeat split. intros Hne. apply Z.eqb_eq in E. contradiction.
  - repeat split.
Qed.

(** *** Categories *)

Lemma name_taken_false (own_id : option Z) (name : string)
  (cs : list Category.t) :
  name_taken own_id name cs = false <->
  forall c, In c cs -> Category.name c = name ->
            exists i, own_id = Some i /\ Category.id c = i.
Proof.
  unfold name_taken.
  set (taken := fun c : Category.t =>
                  String.eqb (Category.name c) name
                  && match own_id with
                     | Some i => negb (Category.id c =? i)
                     | None => true
                     end).
  split.
  - intros H c Hin Hn.
    assert (Hc : taken c = false).
    { destruct (taken c) eqn:Ec; [| reflexivity].
      rewrite <- H. symmetry. apply existsb_exists. now exists c. }
    unfold taken in Hc.
    apply String.eqb_eq in Hn. rewrite Hn in Hc. cbn [andb] in Hc.
    destruct own_id as [i |]; [| discriminate].
    exists i. split; [reflexivity |].
    apply negb_false_iff in Hc. now apply Z.eqb_eq.
  - intros H. destruct (existsb taken cs) eqn:E; [| reflexivity].
    apply existsb_exists in E. destruct E as [c [Hin Hc]].
    unfold taken in Hc.
    apply andb_true_iff in Hc. destruct Hc as [Hn Hi].
    apply String.eqb_eq in Hn.
    destruct (H c Hin Hn) as [i [-> Hid]].
    rewrite Hid, Z.eqb_refl in Hi. discriminate.
Qed.

Lemma next_category_id_fresh (cs : list Category.t) :
  ~ In (next_id (map Category.id cs)) (map Category.id cs).
Proof.
  intros H. apply next_id_above in H. lia.
Qed.

(** X12: for an administrator and a form with a name and an image url,
    [add_category] appends one category under a new id when no category
    carries the name, featured exactly when the form has the key
    [is_featured], and leaves the paintings alone; when a category carries
    the name already, it answers with a server error and stores nothing. *)
Theorem add_category_appends_or_refuses (fields : list (string * string))
  (s : Session) (db : Database) (n url : string) :
  is_admin s = true ->
  form_get "name" fields = Some n ->
  form_get "featured_image_url" fields = Some url ->
  let r := add_category {| method := POST; form := fields |} s db in
  ((forall c, In c (categories db) -> Category.name c <> n) ->
   exists c,
     c = Category.Build (Category.id c) n url (form_has "is_featured" fields) /\
     ~ In (Category.id c) (map Category.id (categories db)) /\
     categories (db_after r) = categories db ++ [c] /\
     paintings (db_after r) = paintings db /\
     response r = Redirect Url_admin) /\
  ((exists c, In c (categories db) /\ Category.name c = n) ->
   r = reply InternalServerError s db).
Proof.
  intros Hadm Hn Hurl. cbv zeta. unfold add_category. cbn [form].
  rewrite Hadm, Hn, Hurl. cbn [negb]. unfold insert_category. split.
  - intros Hfree.
    assert (Ht : name_taken None n (categories db) = false).
    { apply name_taken_false. intros c Hin Hc. now apply Hfree in Hin. }
    rewrite Ht.
    exists (Category.Build (next_id (map Category.id (categories db))) n url
              (form_has "is_featured" fields)).
    cbn [db_after reply response categories paintings with_categories
           Category.id].
    repeat split. apply next_category_id_fresh.
  - intros [c [Hin Hc]].
    destruct (name_taken None n (categories db)) eqn:Ht; [reflexivity |].
    destruct (proj1 (name_taken_false _ _ _) Ht c Hin Hc) as [i [Hi _]].
    discriminate Hi.
Qed.

Lemma add_category_appends_or_refuses_witness :
  is_admin logged_in = true /\
  form_get "name" (form landscapes_request) = Some "Landscapes" /\
  form_get "featured_image_url" (form landscapes_request)
  = Some "landscapes.jpg" /\
  add_category {| method := POST; form := form landscapes_request |}
    logged_in gallery
  = reply InternalServerError logged_in gallery.
Proof.
  split; [reflexivity |]. split; [reflexivity |]. split; [reflexivity |].
  destruct (add_category_appends_or_refuses (form landscapes_request)
              logged_in gallery "Landscapes" "landscapes.jpg"
              eq_refl eq_refl eq_refl) as [_ Hrefuse].
  apply Hrefuse. exists landscapes. split; [left |]; reflexivity.
Defined.

Lemma get_category_id (cid : Z) (cs : list Category.t) (c : Category.t) :
  get_category cid cs = Some c -> Category.id c = cid.
Proof.
  intros H. apply get_category_some in H. destruct H as [_ H].
  apply find_some in H. destruct H as [_ H]. now apply Z.eqb_eq.
Qed.

Lemma get_category_update (cid : Z) (f : Category.t -> Category.t)
  (cs : list Category.t) :
  (forall c, Category.id (f c) = Category.id c) ->
  get_category cid (update_category cid f cs)
  = option_map f (get_category cid cs).
Proof.
  intros Hid. unfold get_category, update_category.
  destruct (sqlite_int cid); [| reflexivity].
  induction cs as [| c cs IH]; cbn [map find]; [reflexivity |].
  destruct (Category.id c =? cid) eqn:E.
  - now rewrite Hid, E.
  - now rewrite E.
Qed.

(** Looking a renamed category up by its new name. *)
Lemma find_renamed_category (cid : Z) (n url : string) (feat : bool)
  (cs : list Category.t) (c : Category.t) :
  get_category cid cs = Some c ->
  (forall c', In c' cs -> Category.name c' = n -> Category.id c' = cid) ->
  find_category (Some n)
    (update_category cid
       (fun c => Category.Build (Category.id c) n url feat) cs)
  = Some (Category.Build cid n url feat).
Proof.
  intros Hget. apply get_category_some in Hget.
  destruct Hget as [_ Hget]. revert Hget.
  unfold find_category, update_category.
  induction cs as [| c0 cs IH]; cbn [map find In]; [discriminate |].
  intros Hget Hfree.
  destruct (Category.id c0 =? cid) eqn:E.
  - cbn [Category.name]. rewrite String.eqb_refl.
    apply Z.eqb_eq in E. now rewrite E.
  - destruct (String.eqb (Category.name c0) n) eqn:En.
    + apply String.eqb_eq in En.
      apply Z.eqb_neq in E. exfalso. apply E.
      apply Hfree; [now left | exact En].
    + apply IH; [exact Hget |].
      intros c' Hin. apply Hfree. now right.
Qed.

(** X13: for an administrator, an existing category and a form with a name
    and an image url, [edit_category] refuses a name that a category of
    another id carries.  Otherwise it flashes the success message, leaves
    paintings and users alone, and stores the submitted name, url and
    featured flag under the same id; the page of the new name then lists the
    unsold paintings that refer to that id. *)
Theorem edit_category_renames_in_place (category_id : Z)
  (fields : list (string * string)) (s : Session) (db : Database)
  (c : Category.t) (n url : string) :
  is_admin s = true ->
  get_category category_id (categories db) = Some c ->
  form_get "name" fields = Some n ->
  form_get "featured_image_url" fields = Some url ->
  let r := edit_category category_id {| method := POST; form := fields |}
             s db in
  let renamed :=
    Category.Build category_id n url (form_has "is_featured" fields) in
  ((forall c', In c' (categories db) -> Category.name c' = n ->
               Category.id c' = category_id) ->
   response r = Redirect Url_admin /\
   flashed r
   = [("success", ("Category '" ++ n ++ "' has been updated.")%string)] /\
   users (db_after r) = users db /\
   paintings (db_after r) = paintings db /\
   get_category category_id (categories (db_after r)) = Some renamed /\
   category_page n (session_after r) (db_after r)
   = reply
       (CategoryPage
          (filter (fun p => (Painting.category_id p =? category_id)
                            && negb (Painting.is_sold p)) (paintings db)) n)
       s (db_after r)) /\
  ((exists c', In c' (categories db) /\ Category.name c' = n /\
               Category.id c' <> category_id) ->
   r = reply InternalServerError s db).
Proof.
  intros Hadm Hget Hn Hurl. cbv zeta.
  unfold edit_category. cbn [method form].
  rewrite Hadm, Hget, Hn, Hurl, (get_category_id _ _ _ Hget).
  cbn [negb]. unfold write_category. split.
  - intros Hfree.
    assert (Ht : name_taken (Some category_id) n (categories db) = false).
    { apply name_taken_false. intros c' Hin Hc'.
      exists category_id. split; [reflexivity | now apply Hfree]. }
    rewrite Ht.
    cbn [response flashed session_after db_after users paintings categories
           with_categories].
    repeat (split; [reflexivity |]). split.
    + rewrite get_category_update by reflexivity. rewrite Hget.
      cbn [option_map]. now rewrite (get_category_id _ _ _ Hget).
    + unfold category_page. cbn [categories paintings with_categories].
      rewrite (find_renamed_category _ _ _ _ _ _ Hget Hfree).
      reflexivity.
  - intros [c' [Hin [Hc' Hne]]].
    destruct (name_taken (Some category_id) n (categories db)) eqn:Ht;
      [reflexivity |].
    destruct (proj1 (name_taken_false _ _ _) Ht c' Hin Hc') as [i [Hi Hid]].
    injection Hi as <-. contradiction.
Qed.

Lemma edit_category_renames_in_place_witness :
  is_admin logged_in = true /\
  get_category 1 (categories gallery) = Some landscapes /\
  form_get "name" [("name", "Ghats"); ("featured_image_url", "ghats.jpg")]
  = Some "Ghats" /\
  form_get "featured_image_url"
    [("name", "Ghats"); ("featured_image_url", "ghats.jpg")]
  = Some "ghats.jpg" /\
  (forall c', In c' (categories gallery) -> Category.name c' = "Ghats" ->
              Category.id c' = 1) /\
  category_page "Ghats"
    (session_after
       (edit_category 1
          {| method := POST;
             form := [("name", "Ghats");
                      ("featured_image_url", "ghats.jpg")] |}
          logged_in gallery))
    (db_after
       (edit_category 1
          {| method := POST;
             form := [("name", "Ghats");
                      ("featured_image_url", "ghats.jpg")] |}
          logged_in gallery))
  = reply
      (CategoryPage
         (filter (fun p => (Painting.category_id p =? 1)
                           && negb (Painting.is_sold p)) (paintings gallery))
         "Ghats")
      logged_in
      (db_after
         (edit_category 1
            {| method := POST;
               form := [("name", "Ghats");
                        ("featured_image_url", "ghats.jpg")] |}
            logged_in gallery)).
Proof.
  assert (Hfree : forall c', In c' (categories gallery) ->
                             Category.name c' = "Ghats" ->
                             Category.id c' = 1)
    by (intros c' [<- | []] _; reflexivity).
  split; [reflexivity |]. split; [reflexivity |]. split; [reflexivity |].
  split; [reflexivity |]. split; [exact Hfree |].
  destruct (edit_category_renames_in_place 1
              [("name", "Ghats"); ("featured_image_url", "ghats.jpg")]
              logged_in gallery landscapes "Ghats" "ghats.jpg"
              eq_refl eq_refl eq_refl eq_refl) as [Hok _].
  apply (Hok Hfree).
Defined.

(** *** Integrity of the store *)

Lemma NoDup_snoc {A : Type} (l : list A) (x : A) :
  ~ In x l -> NoDup l -> NoDup (l ++ [x]).
Proof.
  intros Hx Hl. induction Hl as [| y l Hy Hl IH]; cbn [app].
  - constructor; [intros [] | constructor].
  - constructor.
    + intros H. apply in_app_or in H. destruct H as [H | [-> | []]].
      * contradiction.
      * apply Hx. now left.
    + apply IH. intros H. apply Hx. now right.
Qed.

Lemma NoDup_map_filter {A B : Type} (f : A -> B) (keep : A -> bool)
  (l : list A) :
  NoDup (map f l) -> NoDup (map f (filter keep l)).
Proof.
  induction l as [| x l IH]; cbn [map filter]; [trivial |].
  intros H. apply NoDup_cons_iff in H. destruct H as [Hx Hl].
  destruct (keep x); [| now apply IH].
  cbn [map]. constructor; [| now apply IH].
  intros Hin. apply Hx. apply in_map_iff in Hin.
  destruct Hin as [y [Hy Hin]]. apply filter_In in Hin.
  apply in_map_iff. exists y. tauto.
Qed.

Lemma update_category_absent (cid : Z) (f : Category.t -> Category.t)
  (cs : list Category.t) :
  ~ In cid (map Category.id cs) -> update_category cid f cs = cs.
Proof.
  unfold update_category.
  induction cs as [| c cs IH]; cbn [map In]; [reflexivity |].
  intros H. destruct (Category.id c =? cid) eqn:E.
  - apply Z.eqb_eq in E. exfalso. apply H. now left.
  - f_equal. apply IH. intros Hin. apply H. now right.
Qed.

(** Renaming the row of one id keeps the names apart when no other row
    carries the new name. *)
Lemma update_category_names (cid : Z) (n url : string) (feat : bool)
  (cs : list Category.t) :
  NoDup (map Category.id cs) ->
  NoDup (map Category.name cs) ->
  (forall c, In c cs -> Category.name c = n -> Category.id c = cid) ->
  NoDup (map Category.name
           (update_category cid
              (fun c => Category.Build (Category.id c) n url feat) cs)).
Proof.
  induction cs as [| c0 cs IH]; [constructor |].
  intros Hids Hnames Hfree.
  cbn [map] in Hids, Hnames.
  apply NoDup_cons_iff in Hids. destruct Hids as [Hid0 Hids].
  apply NoDup_cons_iff in Hnames. destruct Hnames as [Hn0 Hnames].
  assert (Hfree' : forall c, In c cs -> Category.name c = n ->
                             Category.id c = cid)
    by (intros c Hin; apply Hfree; now right).
  unfold update_category. cbn [map]. fold (update_category cid
    (fun c => Category.Build (Category.id c) n url feat) cs).
  destruct (Category.id c0 =? cid) eqn:E.
  - apply Z.eqb_eq in E. rewrite E in Hid0.
    rewrite (update_category_absent _ _ _ Hid0).
    cbn [Category.name]. constructor; [| exact Hnames].
    intros Hin. apply in_map_iff in Hin. destruct Hin as [c [Hc Hin]].
    apply Hid0. rewrite <- (Hfree' c Hin Hc). now apply in_map.
  - apply Z.eqb_neq in E. constructor.
    + intros Hin. apply in_map_iff in Hin. destruct Hin as [c' [Hc' Hin]].
      unfold update_category in Hin. apply in_map_iff in Hin.
      destruct Hin as [c [Hc Hin]].
      destruct (Category.id c =? cid); subst c'.
      * cbn [Category.name] in Hc'. apply E. apply Hfree; [now left |].
        now symmetry.
      * apply Hn0. rewrite <- Hc'. now apply in_map.
    + now apply IH.
Qed.

(** X14: every admin view keeps the keys of the store unique: if no two
    paintings share an id, no two categories share an id and no two
    categories share a name, the same holds of the store the view leaves,
    whatever the request. *)
Theorem admin_views_keep_keys_unique
  (float : string -> option PyFloat.t) (route : AdminRoute)
  (request : Request) (s : Session) (db : Database) :
  keys_unique db ->
  keys_unique (db_after (admin_view float route request s db)).
Proof.
  intros Hk.
  destruct (is_admin s) eqn:Hadm;
    [| now rewrite admin_view_guarded].
  pose proof Hk as (Hp & Hc & Hn).
  destruct route; cbn [admin_view].
  - unfold admin. now rewrite Hadm.
  - unfold add_painting. rewrite Hadm. cbn [negb].
    destruct (find_category _ _); [| exact Hk].
    destruct (float_of_field _ _) as [v |]; [| exact Hk].
    unfold insert_painting.
    destruct (form_get "title" _); [| exact Hk].
    destruct (form_get "description" _); [| exact Hk].
    destruct (form_get "image_url" _); [| exact Hk].
    destruct (PyFloat.is_nan v); [exact Hk |].
    split; [| split; assumption].
    cbn [db_after reply paintings with_paintings].
    rewrite map_app. apply NoDup_snoc; [apply next_id_fresh | exact Hp].
  - unfold add_category. rewrite Hadm. cbn [negb].
    unfold insert_category.
    destruct (form_get "name" _) as [n |]; [| exact Hk].
    destruct (form_get "featured_image_url" _); [| exact Hk].
    destruct (name_taken None n (categories db)) eqn:Ht; [exact Hk |].
    cbn [db_after reply]. unfold keys_unique.
    cbn [paintings categories with_categories].
    rewrite !map_app. split; [exact Hp |]. split.
    + apply NoDup_snoc; [apply next_category_id_fresh | exact Hc].
    + apply NoDup_snoc; [| exact Hn].
      cbn [Category.name]. intros Hin. apply in_map_iff in Hin.
      destruct Hin as [c [Hcn Hin]].
      destruct (proj1 (name_taken_false _ _ _) Ht c Hin Hcn) as [i [Hi _]].
      discriminate Hi.
  - unfold edit_painting. rewrite Hadm. cbn [negb].
    destruct (get_painting _ _); [| exact Hk].
    destruct (method request); [exact Hk |].
    destruct (float_of_field _ _) as [v |]; [| exact Hk].
    unfold write_painting.
    destruct (form_get "title" _); [| exact Hk].
    destruct (form_get "description" _); [| exact Hk].
    destruct (form_get "image_url" _); [| exact Hk].
    destruct (PyFloat.is_nan v); [exact Hk |].
    split; [| split; assumption].
    cbn [db_after reply paintings with_paintings].
    now rewrite update_painting_ids by reflexivity.
  - unfold delete_painting. rewrite Hadm. cbn [negb].
    destruct (get_painting _ _); [| exact Hk].
    split; [| split; assumption].
    cbn [db_after reply paintings with_paintings].
    unfold remove_painting. now apply NoDup_map_filter.
  - unfold toggle_sold. rewrite Hadm. cbn [negb].
    destruct (get_painting _ _); [| exact Hk].
    split; [| split; assumption].
    cbn [db_after reply paintings with_paintings].
    now rewrite update_painting_ids by reflexivity.
  - unfold delete_category. rewrite Hadm. cbn [negb].
    now destruct (get_category _ _).
  - unfold edit_category. rewrite Hadm. cbn [negb].
    destruct (get_category _ _) as [c |]; [| exact Hk].
    destruct (method request); [exact Hk |].
    unfold write_category.
    destruct (form_get "name" _) as [n |]; [| exact Hk].
    destruct (form_get "featured_image_url" _) as [url |]; [| exact Hk].
    destruct (name_taken (Some (Category.id c)) n (categories db)) eqn:Ht;
      [exact Hk |].
    cbn [db_after]. unfold keys_unique.
    cbn [paintings categories with_categories].
    split; [exact Hp |]. split.
    + now rewrite update_category_ids by reflexivity.
    + apply update_category_names; [exact Hc | exact Hn |].
      intros c' Hin Hc'.
      destruct (proj1 (name_taken_false _ _ _) Ht c' Hin Hc') as [i [Hi Hid]].
      now injection Hi as <-.
Qed.

Lemma gallery_keys_unique : keys_unique gallery.
Proof.
  repeat split; repeat constructor; intros [].
Qed.

Lemma admin_views_keep_keys_unique_witness :
  keys_unique gallery /\
  keys_unique
    (db_after
       (admin_view PyFloat.of_string Route_add_painting dusk_request
          logged_in gallery)).
Proof.
  split; [exact gallery_keys_unique |].
  exact (admin_views_keep_keys_unique PyFloat.of_string Route_add_painting
           dusk_request logged_in gallery gallery_keys_unique).
Defined.

(** X15: every admin view keeps the references of the store valid: if each
    painting refers to the id of a category of the store, so does each
    painting of the store the view leaves, whatever the request. *)
Theorem admin_views_keep_references_valid
  (float : string -> option PyFloat.t) (route : AdminRoute)
  (request : Request) (s : Session) (db : Database) :
  references_valid db ->
  references_valid (db_after (admin_view float route request s db)).
Proof.
  intros Hr.
  destruct (is_admin s) eqn:Hadm;
    [| now rewrite admin_view_guarded].
  destruct route; cbn [admin_view].
  - unfold admin. now rewrite Hadm.
  - unfold add_painting. rewrite Hadm. cbn [negb].
    destruct (find_category _ _) as [c |] eqn:Hc; [| exact Hr].
    destruct (float_of_field _ _) as [v |]; [| exact Hr].
    unfold insert_painting.
    destruct (form_get "title" _); [| exact Hr].
    destruct (form_get "description" _); [| exact Hr].
    destruct (form_get "image_url" _); [| exact Hr].
    destruct (PyFloat.is_nan v); [exact Hr |].
    intros p. cbn [db_after reply paintings categories with_paintings].
    intros Hin. apply in_app_or in Hin.
    destruct Hin as [Hin | [<- | []]]; [now apply Hr |].
    cbn [Painting.category_id]. apply in_map.
    destruct (form_get "category" _) as [n |]; [| discriminate Hc].
    cbn [find_category] in Hc. now apply find_some in Hc.
  - unfold add_category. rewrite Hadm. cbn [negb].
    destruct (insert_category _ _ _ _) as [cs |] eqn:Hi; [| exact Hr].
    unfold insert_category in Hi.
    destruct (form_get "name" _) as [n |]; [| discriminate Hi].
    destruct (form_get "featured_image_url" _); [| discriminate Hi].
    destruct (name_taken None n _); [discriminate Hi |].
    injection Hi as <-.
    intros p. cbn [db_after reply paintings categories with_categories].
    intros Hin. rewrite map_app. apply in_or_app. left. now apply Hr.
  - unfold edit_painting. rewrite Hadm. cbn [negb].
    destruct (get_painting _ _) as [P |] eqn:HP; [| exact Hr].
    destruct (method request); [exact Hr |].
    destruct (float_of_field _ _) as [v |]; [| exact Hr].
    unfold write_painting.
    destruct (form_get "title" _); [| exact Hr].
    destruct (form_get "description" _); [| exact Hr].
    destruct (form_get "image_url" _); [| exact Hr].
    destruct (PyFloat.is_nan v); [exact Hr |].
    intros p. cbn [db_after reply paintings categories with_paintings].
    unfold update_painting. intros Hin. apply in_map_iff in Hin.
    destruct Hin as [q [Hq Hin]].
    destruct (Painting.id q =? painting_id); subst p; [| now apply Hr].
    cbn [Painting.set_details Painting.category_id].
    destruct (find_category _ _) as [c |] eqn:Hc.
    + apply in_map.
      destruct (form_get "category" _) as [n |]; [| discriminate Hc].
      cbn [find_category] in Hc. now apply find_some in Hc.
    + apply Hr. exact (get_painting_row _ _ _ HP).
  - unfold delete_painting. rewrite Hadm. cbn [negb].
    destruct (get_painting _ _); [| exact Hr].
    intros p. cbn [db_after reply paintings categories with_paintings].
    intros Hin. apply remove_painting_In in Hin. apply Hr. tauto.
  - unfold toggle_sold. rewrite Hadm. cbn [negb].
    destruct (get_painting _ _) as [t |]; [| exact Hr].
    intros p. cbn [db_after reply paintings categories with_paintings].
    unfold update_painting. intros Hin. apply in_map_iff in Hin.
    destruct Hin as [q [Hq Hin]].
    destruct (Painting.id q =? _); subst p;
      [change (Painting.category_id (Painting.set_is_sold
                 (negb (Painting.is_sold t)) q))
         with (Painting.category_id q) |];
      now apply Hr.
  - unfold delete_category. rewrite Hadm. cbn [negb].
    now destruct (get_category _ _).
  - unfold edit_category. rewrite Hadm. cbn [negb].
    destruct (get_category _ _) as [c |]; [| exact Hr].
    destruct (method request); [exact Hr |].
    unfold write_category.
    destruct (form_get "name" _) as [n |]; [| exact Hr].
    destruct (form_get "featured_image_url" _) as [url |]; [| exact Hr].
    destruct (name_taken _ n _); [exact Hr |].
    intros p. cbn [db_after paintings categories with_categories].
    intros Hin. rewrite update_category_ids by reflexivity. now apply Hr.
Qed.

Lemma gallery_references_valid : references_valid gallery.
Proof.
  intros p [<- | []]. left. reflexivity.
Qed.

Lemma admin_views_keep_references_valid_witness :
  references_valid gallery /\
  references_valid
    (db_after
       (admin_view PyFloat.of_string (Route_edit_painting 1)
          {| method := POST; form := dawn_retitled |} logged_in gallery)).
Proof.
  split; [exact gallery_references_valid |].
  exact (admin_views_keep_references_valid PyFloat.of_string
           (Route_edit_painting 1)
           {| method := POST; form := dawn_retitled |} logged_in gallery
           gallery_references_valid).
Defined.

(** *** The admin account *)

Lemma find_user_appended (n : string) (us : list User.t) (u : User.t) :
  find_user (Some n) us = None ->
  User.username u = n ->
  find_user (Some n) (us ++ [u]) = Some u.
Proof.
  cbn [find_user]. intros Hnone Hu.
  induction us as [| x us IH]; cbn [app find] in *.
  - now rewrite Hu, String.eqb_refl.
  - destruct (String.eqb (User.username x) n); [discriminate | now apply IH].
Qed.

(** X16: [create_admin_command] is idempotent.  After one run a user named
    admin exists and categories and paintings are untouched; a second run
    only reports that the admin exists and leaves the store of the first run
    as it is.  A run on a store that has an admin already changes nothing,
    the stored hash included. *)
Theorem create_admin_command_idempotent
  (generate_password_hash : string -> string) (db : Database) :
  let db1 := snd (create_admin_command generate_password_hash db) in
  (exists u, find_user (Some "admin") (users db1) = Some u) /\
  categories db1 = categories db /\
  paintings db1 = paintings db /\
  create_admin_command generate_password_hash db1
  = ("Admin user already exists.", db1) /\
  (forall u, find_user (Some "admin") (users db) = Some u ->
             create_admin_command generate_password_hash db
             = ("Admin user already exists.", db)).
Proof.
  cbv zeta.
  destruct (find_user (Some "admin") (users db)) as [u |] eqn:Hu.
  - assert (E : create_admin_command generate_password_hash db
                = ("Admin user already exists.", db))
      by (unfold create_admin_command; now rewrite Hu).
    rewrite E. cbn [snd].
    split; [now exists u |].
    split; [reflexivity |]. split; [reflexivity |].
    split; [exact E | intros _ _; reflexivity].
  - set (admin := set_password generate_password_hash
                    (User.Build (next_id (map User.id (users db))) "admin" "")
                    "admin123").
    assert (E : create_admin_command generate_password_hash db
                = ("Admin user created with username 'admin' and password 'admin123'.",
                   with_users (users db ++ [admin]) db))
      by (unfold create_admin_command; now rewrite Hu).
    rewrite E. cbn [snd users categories paintings with_users].
    assert (Hfound : find_user (Some "admin") (users db ++ [admin])
                     = Some admin)
      by (apply find_user_appended; [exact Hu | reflexivity]).
    split; [now exists admin |].
    split; [reflexivity |]. split; [reflexivity |].
    split; [| discriminate].
    unfold create_admin_command. cbn [users with_users].
    now rewrite Hfound.
Qed.

(** X17: on a store without an admin, and with a password check that
    accepts every password against the hash generated from it, the account
    that [create_admin_command] creates can log in with the user name admin
    and the password admin123: [login] redirects to the admin view and puts
    the id of the new user into the session. *)
Theorem create_admin_then_login
  (generate_password_hash : string -> string)
  (check_password_hash : string -> string -> bool) (s : Session)
  (db : Database) :
  (forall password,
     check_password_hash (generate_password_hash password) password = true) ->
  find_user (Some "admin") (users db) = None ->
  let db1 := snd (create_admin_command generate_password_hash db) in
  login check_password_hash (login_request "admin" "admin123") s db1
  = reply (Redirect Url_admin) (Some (next_id (map User.id (users db)))) db1.
Proof.
  intros Hcheck Hnone. cbv zeta.
  unfold create_admin_command. rewrite Hnone. cbn [snd].
  unfold login, login_request. cbn [method form users with_users].
  change (form_get "username" [("username", "admin"); ("password", "admin123")])
    with (Some "admin").
  change (form_get "password" [("username", "admin"); ("password", "admin123")])
    with (Some "admin123").
  rewrite (find_user_appended "admin" (users db)
             (set_password generate_password_hash
                (User.Build (next_id (map User.id (users db))) "admin" "")
                "admin123") Hnone eq_refl).
  unfold check_password, set_password. cbn [User.password_hash User.id].
  now rewrite Hcheck.
Qed.

Lemma create_admin_then_login_witness :
  (forall password, plain_check ((fun p => p) password) password = true) /\
  find_user (Some "admin") (users {| users := []; categories := [];
                                     paintings := [] |}) = None /\
  login plain_check (login_request "admin" "admin123") None
    (snd (create_admin_command (fun p => p)
            {| users := []; categories := []; paintings := [] |}))
  = reply (Redirect Url_admin) (Some 1)
      (snd (create_admin_command (fun p => p)
              {| users := []; categories := []; paintings := [] |})).
Proof.
  assert (Hcheck : forall password,
             plain_check ((fun p => p) password) password = true)
    by (intros password; apply String.eqb_refl).
  split; [exact Hcheck |]. split; [reflexivity |].
  exact (create_admin_then_login (fun p => p) plain_check None
           {| users := []; categories := []; paintings := [] |}
           Hcheck eq_refl).
Defined.
